(** * Traffic parser: packet classification, batch extraction, filters and statistics

    A shallow embedding of [pcap_parser.py] (class [PCAPParser]) and of
    [json_exporter.py] (class [JSONExporter]).

    Python dictionaries are finite maps from keys to Python values, Python
    exceptions are the [None] of an option type, and the logger is an
    explicit list of log events threaded through the batch loop. *)

From Stdlib Require Import ZArith QArith Ascii String List Sorted Lia.
From stdpp Require Import gmap strings pretty list fin_maps.

Set Warnings "-register-all".

Local Open Scope string_scope.
Local Open Scope Z_scope.
Local Open Scope list_scope.

(** ** Python values *)

(** A [datetime] object: a point in time in microseconds, and whether the
    object carries a time zone.  Ordering a zone-aware against a naive object
    raises [TypeError]. *)
Record datetime := DateTime { tz_aware : bool; instant : Z }.

(** The values that occur in packet dictionaries and in filter dictionaries. *)
Inductive pyval : Type :=
  | PyNone
  | PyInt (n : Z)
  | PyStr (s : string)
  | PyDatetime (d : datetime).

#[global] Instance datetime_eq_dec : EqDecision datetime.
Proof. solve_decision. Defined.

#[global] Instance pyval_eq_dec : EqDecision pyval.
Proof. solve_decision. Defined.

(** A Python [dict] with string keys. *)
Abbreviation pydict := (gmap string pyval).

(** Truth value of an object, as tested by [if x:] and by [and]. *)
Definition truthy (v : pyval) : bool :=
  match v with
  | PyNone => false
  | PyInt n => negb (n =? 0)
  | PyStr s => negb (String.eqb s EmptyString)
  | PyDatetime _ => true
  end.

(** [d.get(k)] and [d.get(k, dflt)]. *)
Definition get_d (d : pydict) (k : string) (dflt : pyval) : pyval :=
  default dflt (d !! k).

Definition get (d : pydict) (k : string) : pyval := get_d d k PyNone.

(** [d.update({k1: v1, ...})]: later bindings win. *)
Definition update (d : pydict) (kvs : list (string * pyval)) : pydict :=
  foldl (fun acc kv => <[kv.1 := kv.2]> acc) d kvs.

(** [a == b]: within these values equality never raises, and values of
    different types are unequal. *)
Definition py_eq (a b : pyval) : bool := bool_decide (a = b).

(** [a <= b]; [None] stands for the [TypeError] of an unsupported
    comparison. *)
Definition py_le (a b : pyval) : option bool :=
  match a, b with
  | PyInt x, PyInt y => Some (x <=? y)
  | PyStr s, PyStr t => Some (String.leb s t)
  | PyDatetime x, PyDatetime y =>
      if Bool.eqb (tz_aware x) (tz_aware y)
      then Some (instant x <=? instant y) else None
  | _, _ => None
  end.

Definition py_ge (a b : pyval) : option bool := py_le b a.

(** [a < b] and [a > b], as used by [min] and [max]. *)
Definition py_lt (a b : pyval) : option bool :=
  match a, b with
  | PyInt x, PyInt y => Some (x <? y)
  | PyStr s, PyStr t => Some (String.ltb s t)
  | PyDatetime x, PyDatetime y =>
      if Bool.eqb (tz_aware x) (tz_aware y)
      then Some (instant x <? instant y) else None
  | _, _ => None
  end.

Definition py_gt (a b : pyval) : option bool := py_lt b a.

(** JSON documents handed to [json.dumps]. *)
Inductive json : Type :=
  | JInt (n : Z)
  | JStr (s : string)
  | JArr (items : list json)
  | JObj (members : list (string * json)).

(** ** Decoded frames (Scapy packets) *)

Record ip_hdr := { src : string; dst : string }.
Record tcp_hdr :=
  { tcp_sport : Z; tcp_dport : Z; flags : Z; seq : Z; ack : Z; window : Z }.
Record udp_hdr := { udp_sport : Z; udp_dport : Z; len : Z; chksum : Z }.
Record icmp_hdr := { type : Z; code : Z }.

(** One layer of a packet.  [Layer name] is any layer the parser does not
    look into (Ethernet, ARP, Raw, ...). *)
Inductive layer : Type :=
  | IP (h : ip_hdr)
  | IPv6 (h : ip_hdr)
  | TCP (h : tcp_hdr)
  | UDP (h : udp_hdr)
  | ICMP (h : icmp_hdr)
  | Layer (name : string).

(** [layer.name] *)
Definition layer_name (l : layer) : string :=
  match l with
  | IP _ => "IP"
  | IPv6 _ => "IPv6"
  | TCP _ => "TCP"
  | UDP _ => "UDP"
  | ICMP _ => "ICMP"
  | Layer name => name
  end.

(** A packet: capture time in seconds, [len(packet)], the layers from the
    outermost to the innermost, and the text of [packet.summary()]. *)
Record packet := {
  time : Q;
  length_bytes : nat;
  layers : list layer;
  summary : string
}.

(** The layer classes the parser asks for: each reads its header out of a
    layer of that class. *)
Definition cls_IP (l : layer) : option ip_hdr :=
  match l with IP h => Some h | _ => None end.
Definition cls_IPv6 (l : layer) : option ip_hdr :=
  match l with IPv6 h => Some h | _ => None end.
Definition cls_TCP (l : layer) : option tcp_hdr :=
  match l with TCP h => Some h | _ => None end.
Definition cls_UDP (l : layer) : option udp_hdr :=
  match l with UDP h => Some h | _ => None end.
Definition cls_ICMP (l : layer) : option icmp_hdr :=
  match l with ICMP h => Some h | _ => None end.

(** [packet[cls]]: the first layer of that class; [None] is the
    [IndexError] raised when the packet has none. *)
Fixpoint first_layer {H : Type} (cls : layer -> option H) (ls : list layer)
  : option H :=
  match ls with
  | [] => None
  | l :: ls' =>
      match cls l with
      | Some h => Some h
      | None => first_layer cls ls'
      end
  end.

Definition getitem {H : Type} (p : packet) (cls : layer -> option H) : option H :=
  first_layer cls (layers p).

(** [packet.haslayer(cls)] *)
Definition haslayer {H : Type} (p : packet) (cls : layer -> option H) : bool :=
  existsb (fun l => bool_decide (is_Some (cls l))) (layers p).

(** ** Logging *)

Inductive log_event : Type :=
  | InfoParsing (file_path : string)
  | WarnLimited (cap : Z) (file_path : string)
  | InfoParsed (count : nat) (file_path : string)
  | ErrorReading (file_path : string)
  | ErrorExtracting.

(** ** The libraries the program calls

    The functions of Scapy and of the Python standard library that the two
    modules call, as an interface.  Where a function can raise, [None] is
    the exception. *)
Class Library := {
  (** [datetime.fromtimestamp(float(t))]; raises for a time outside the
      range the platform supports. *)
  fromtimestamp : Q -> option datetime;
  (** [datetime.fromisoformat] on a string *)
  fromisoformat : string -> option datetime;
  (** [json.dumps] *)
  json_dumps : json -> string;
  (** [str] of the TCP flags value *)
  flags_str : Z -> string;
  (** [rdpcap]; raises when the file cannot be read. *)
  rdpcap : string -> option (list packet);
  (** [os.path.basename] *)
  basename : string -> string
}.

(** ** [pcap_parser.py] *)

(** The fixed set of protocol labels. *)
Definition protocol_labels : list string :=
  ["IP"; "TCP"; "UDP"; "ICMP"; "IPv6"; "TCPv6"; "UDPv6"; "Other"].

Section PCAPParser.

Context {lib : Library}.

(** The body of the [try] block of [_extract_packet_info]; [None] is a
    raised exception. *)
Definition extract_body (p : packet) (file_name : string) : option pydict :=
  timestamp ← fromtimestamp (time p);
  let packet_data : pydict :=
    update ∅ [("timestamp", PyDatetime timestamp);
              ("packet_size", PyInt (Z.of_nat (length_bytes p)));
              ("file_name", PyStr file_name);
              ("packet_data", PyNone)] in
  if haslayer p cls_IP then
    ip_layer ← getitem p cls_IP;
    let packet_data :=
      update packet_data [("source_ip", PyStr (src ip_layer));
                          ("destination_ip", PyStr (dst ip_layer));
                          ("protocol", PyStr "IP")] in
    if haslayer p cls_TCP then
      tcp_layer ← getitem p cls_TCP;
      let packet_data :=
        update packet_data [("source_port", PyInt (tcp_sport tcp_layer));
                            ("destination_port", PyInt (tcp_dport tcp_layer));
                            ("protocol", PyStr "TCP")] in
      Some (<["packet_data" :=
               PyStr (json_dumps (JObj
                 [("tcp_flags", JStr (flags_str (flags tcp_layer)));
                  ("tcp_seq", JInt (seq tcp_layer));
                  ("tcp_ack", JInt (ack tcp_layer));
                  ("tcp_window", JInt (window tcp_layer))]))]> packet_data)
    else if haslayer p cls_UDP then
      udp_layer ← getitem p cls_UDP;
      let packet_data :=
        update packet_data [("source_port", PyInt (udp_sport udp_layer));
                            ("destination_port", PyInt (udp_dport udp_layer));
                            ("protocol", PyStr "UDP")] in
      Some (<["packet_data" :=
               PyStr (json_dumps (JObj
                 [("udp_length", JInt (len udp_layer));
                  ("udp_checksum", JInt (chksum udp_layer))]))]> packet_data)
    else if haslayer p cls_ICMP then
      icmp_layer ← getitem p cls_ICMP;
      let packet_data := update packet_data [("protocol", PyStr "ICMP")] in
      Some (<["packet_data" :=
               PyStr (json_dumps (JObj
                 [("icmp_type", JInt (type icmp_layer));
                  ("icmp_code", JInt (code icmp_layer))]))]> packet_data)
    else Some packet_data
  else if haslayer p cls_IPv6 then
    ipv6_layer ← getitem p cls_IPv6;
    let packet_data :=
      update packet_data [("source_ip", PyStr (src ipv6_layer));
                          ("destination_ip", PyStr (dst ipv6_layer));
                          ("protocol", PyStr "IPv6")] in
    if haslayer p cls_TCP then
      tcp_layer ← getitem p cls_TCP;
      Some (update packet_data
              [("source_port", PyInt (tcp_sport tcp_layer));
               ("destination_port", PyInt (tcp_dport tcp_layer));
               ("protocol", PyStr "TCPv6")])
    else if haslayer p cls_UDP then
      udp_layer ← getitem p cls_UDP;
      Some (update packet_data
              [("source_port", PyInt (udp_sport udp_layer));
               ("destination_port", PyInt (udp_dport udp_layer));
               ("protocol", PyStr "UDPv6")])
    else Some packet_data
  else
    Some (update packet_data
            [("protocol", PyStr "Other");
             ("packet_data",
              PyStr (json_dumps (JObj
                [("packet_summary", JStr (summary p));
                 ("packet_layers",
                  JArr (map (fun l => JStr (layer_name l)) (layers p)))])))]).

(** [_extract_packet_info]: the dictionary, or [None] with an error logged
    when the body raised. *)
Definition _extract_packet_info (p : packet) (file_name : string)
  : option pydict * list log_event :=
  match extract_body p file_name with
  | Some packet_data => (Some packet_data, [])
  | None => (None, [ErrorExtracting])
  end.

(** The record a frame yields, if any. *)
Definition classify (file_name : string) (p : packet) : option pydict :=
  (_extract_packet_info p file_name).1.

(** [if packet_data:] on a dictionary *)
Definition dict_truthy (d : pydict) : bool := negb (bool_decide (d = ∅)).

(** [l[:k]] *)
Definition slice_to {A : Type} (l : list A) (k : Z) : list A :=
  if 0 <=? k then take (Z.to_nat k) l
  else take (length l - Z.to_nat (- k)) l.

(** The packets handed to the loop: lines 35-36 of [parse_pcap_file]. *)
Definition batch {A : Type} (max_packets_per_file : Z) (packets : list A)
  : list A :=
  if negb (max_packets_per_file =? 0)
     && (Z.of_nat (length packets) >? max_packets_per_file)
  then slice_to packets max_packets_per_file
  else packets.

(** One turn of the loop of [parse_pcap_file] over the state
    [(packets_data, log)].  [_extract_packet_info] catches every exception
    itself, so the handler around the call is never entered. *)
Definition loop_step (file_name : string)
    (st : list pydict * list log_event) (p : packet)
  : list pydict * list log_event :=
  let '(result, logged) := _extract_packet_info p file_name in
  match result with
  | Some packet_data =>
      if dict_truthy packet_data
      then (st.1 ++ [packet_data], st.2 ++ logged)
      else (st.1, st.2 ++ logged)
  | None => (st.1, st.2 ++ logged)
  end.

(** [parse_pcap_file]: the records and the log. *)
Definition parse_pcap_file (max_packets_per_file : Z) (file_path : string)
  : list pydict * list log_event :=
  match rdpcap file_path with
  | None => ([], [InfoParsing file_path; ErrorReading file_path])
  | Some packets =>
      let '(packets, log) :=
        if negb (max_packets_per_file =? 0)
           && (Z.of_nat (length packets) >? max_packets_per_file)
        then (slice_to packets max_packets_per_file,
              [InfoParsing file_path;
               WarnLimited max_packets_per_file file_path])
        else (packets, [InfoParsing file_path]) in
      let file_name := basename file_path in
      let '(packets_data, log) :=
        foldl (loop_step file_name) ([], log) packets in
      (packets_data, log ++ [InfoParsed (length packets_data) file_path])
  end.

End PCAPParser.

(** ** [json_exporter.py] *)

(** A frequency dictionary, in insertion order. *)
Abbreviation counter := (list (pyval * nat)).

(** [c[k] = c.get(k, 0) + 1] *)
Fixpoint bump (k : pyval) (c : counter) : counter :=
  match c with
  | [] => [(k, 1%nat)]
  | (k', n) :: c' =>
      if decide (k' = k) then (k', S n) :: c' else (k', n) :: bump k c'
  end.

(** [sorted(c.items(), key=lambda x: x[1], reverse=True)]: by count,
    largest first; the sort is stable, so equal counts keep their order. *)
Fixpoint insert_desc (x : pyval * nat) (l : counter) : counter :=
  match l with
  | [] => [x]
  | y :: l' => if (x.2 <? y.2)%nat then y :: insert_desc x l' else x :: l
  end.

Definition sorted_desc (c : counter) : counter := foldr insert_desc [] c.

(** [dict(sorted(...)[:10])] *)
Definition top10 (c : counter) : counter := take 10 (sorted_desc c).

(** [min(l)] and [max(l)]: the first smallest (largest) item; [None] when a
    comparison raises or the list is empty. *)
Fixpoint min_from (best : pyval) (l : list pyval) : option pyval :=
  match l with
  | [] => Some best
  | x :: l' => b ← py_lt x best; min_from (if b : bool then x else best) l'
  end.

Definition py_min (l : list pyval) : option pyval :=
  match l with [] => None | x :: l' => min_from x l' end.

Fixpoint max_from (best : pyval) (l : list pyval) : option pyval :=
  match l with
  | [] => Some best
  | x :: l' => b ← py_gt x best; max_from (if b : bool then x else best) l'
  end.

Definition py_max (l : list pyval) : option pyval :=
  match l with [] => None | x :: l' => max_from x l' end.

(** [sum(l)]: starts from the integer 0; adding anything but an integer to
    it raises. *)
Definition py_add (acc : option Z) (x : pyval) : option Z :=
  a ← acc; match x with PyInt n => Some (a + n) | _ => None end.

Definition py_sum (l : list pyval) : option Z := foldl py_add (Some 0) l.

(** The value under [packet_size_stats]. *)
Record size_stats := {
  stat_min : pyval;
  stat_max : pyval;
  stat_average : Q;
  stat_total_bytes : Z
}.

(** The values of the statistics dictionary. *)
Inductive statval : Type :=
  | StInt (n : nat)
  | StCounts (c : counter)
  | StSizes (s : size_stats).

(** A list comprehension [[p for p in l if cond(p)]] whose condition may
    raise. *)
Fixpoint comprehension {A : Type} (cond : A -> option bool) (l : list A)
  : option (list A) :=
  match l with
  | [] => Some []
  | x :: l' =>
      b ← cond x;
      rest ← comprehension cond l';
      Some (if b : bool then x :: rest else rest)
  end.

Section JSONExporter.

Context {lib : Library}.

(** [datetime.fromisoformat(v)]: anything but a string is a [TypeError]. *)
Definition py_fromisoformat (v : pyval) : option datetime :=
  match v with PyStr s => fromisoformat s | _ => None end.

(** [k in filters and filters[k]]: the value of an active criterion. *)
Definition active (filters : pydict) (k : string) : option pyval :=
  match filters !! k with
  | Some v => if truthy v then Some v else None
  | None => None
  end.

(** [_apply_filters]; [None] is a raised exception. *)
Definition _apply_filters (packets_data : list pydict) (filters : pydict)
  : option (list pydict) :=
  let filtered_packets := packets_data in
  filtered_packets ←
    match active filters "protocol" with
    | Some protocol =>
        comprehension
          (fun p => Some (py_eq (get p "protocol") protocol))
          filtered_packets
    | None => Some filtered_packets
    end;
  filtered_packets ←
    match active filters "ip_address" with
    | Some ip =>
        comprehension
          (fun p => Some (py_eq (get p "source_ip") ip
                          || py_eq (get p "destination_ip") ip))
          filtered_packets
    | None => Some filtered_packets
    end;
  filtered_packets ←
    match active filters "port" with
    | Some port =>
        comprehension
          (fun p => Some (py_eq (get p "source_port") port
                          || py_eq (get p "destination_port") port))
          filtered_packets
    | None => Some filtered_packets
    end;
  filtered_packets ←
    match active filters "min_size" with
    | Some min_size =>
        comprehension
          (fun p => py_ge (get_d p "packet_size" (PyInt 0)) min_size)
          filtered_packets
    | None => Some filtered_packets
    end;
  filtered_packets ←
    match active filters "max_size" with
    | Some max_size =>
        comprehension
          (fun p => py_le (get_d p "packet_size" (PyInt 0)) max_size)
          filtered_packets
    | None => Some filtered_packets
    end;
  filtered_packets ←
    match active filters "start_time" with
    | Some v =>
        start_time ← py_fromisoformat v;
        comprehension
          (fun p =>
             t ← py_fromisoformat (get_d p "timestamp" (PyStr EmptyString));
             py_ge (PyDatetime t) (PyDatetime start_time))
          filtered_packets
    | None => Some filtered_packets
    end;
  match active filters "end_time" with
  | Some v =>
      end_time ← py_fromisoformat v;
      comprehension
        (fun p =>
           t ← py_fromisoformat (get_d p "timestamp" (PyStr EmptyString));
           py_le (PyDatetime t) (PyDatetime end_time))
        filtered_packets
  | None => Some filtered_packets
  end.

End JSONExporter.

(** Count the truthy values found under key [k]. *)
Definition count_key (k : string) (packets_data : list pydict) : counter :=
  foldl (fun c packet =>
           if truthy (get packet k) then bump (get packet k) c else c)
        [] packets_data.

(** [_calculate_statistics]; [None] is a raised exception. *)
Definition _calculate_statistics (packets_data : list pydict)
  : option (gmap string statval) :=
  match packets_data with
  | [] => Some ∅
  | _ :: _ =>
      let protocols :=
        foldl (fun c packet => bump (get_d packet "protocol" (PyStr "Unknown")) c)
              [] packets_data in
      let source_ips := count_key "source_ip" packets_data in
      let dest_ips := count_key "destination_ip" packets_data in
      let source_ports := count_key "source_port" packets_data in
      let dest_ports := count_key "destination_port" packets_data in
      let packet_sizes :=
        map (fun packet => get_d packet "packet_size" (PyInt 0)) packets_data in
      smin ← match packet_sizes with
             | [] => Some (PyInt 0) | _ => py_min packet_sizes end;
      smax ← match packet_sizes with
             | [] => Some (PyInt 0) | _ => py_max packet_sizes end;
      average ← match packet_sizes with
                | [] => Some (inject_Z 0)
                | _ => total ← py_sum packet_sizes;
                       Some (Qdiv (inject_Z total)
                                  (inject_Z (Z.of_nat (length packet_sizes))))
                end;
      total_bytes ← py_sum packet_sizes;
      Some (list_to_map
        [("total_packets", StInt (length packets_data));
         ("protocol_distribution", StCounts protocols);
         ("top_source_ips", StCounts (top10 source_ips));
         ("top_destination_ips", StCounts (top10 dest_ips));
         ("top_source_ports", StCounts (top10 source_ports));
         ("top_destination_ports", StCounts (top10 dest_ports));
         ("packet_size_stats",
          StSizes {| stat_min := smin; stat_max := smax;
                     stat_average := average;
                     stat_total_bytes := total_bytes |})])
  end.

(** ** [_apply_filters] as a pipeline of criteria

    Each of the seven blocks of [_apply_filters] is switched off, raises
    before it looks at a record, or runs a comprehension. *)

Inductive criterion : Type :=
  | Off
  | Raises
  | On (cond : pydict -> option bool).

Definition run (c : criterion) (l : list pydict) : option (list pydict) :=
  match c with
  | Off => Some l
  | Raises => None
  | On cond => comprehension cond l
  end.

Fixpoint run_all (cs : list criterion) (l : list pydict)
  : option (list pydict) :=
  match cs with
  | [] => Some l
  | c :: cs' => l' ← run c l; run_all cs' l'
  end.

(** What a criterion demands of a list for [run] to return it unchanged. *)
Definition accepts (l : list pydict) (c : criterion) : Prop :=
  match c with
  | Off => True
  | Raises => False
  | On cond => Forall (fun p => cond p = Some true) l
  end.

(** What a criterion needs of a list for [run] not to raise. *)
Definition defined_on (l : list pydict) (c : criterion) : Prop :=
  match c with
  | Off => True
  | Raises => False
  | On cond => Forall (fun p => is_Some (cond p)) l
  end.

Section Criteria.

Context {lib : Library}.

Definition criteria (filters : pydict) : list criterion :=
  [ match active filters "protocol" with
    | Some protocol => On (fun p => Some (py_eq (get p "protocol") protocol))
    | None => Off
    end;
    match active filters "ip_address" with
    | Some ip =>
        On (fun p => Some (py_eq (get p "source_ip") ip
                           || py_eq (get p "destination_ip") ip))
    | None => Off
    end;
    match active filters "port" with
    | Some port =>
        On (fun p => Some (py_eq (get p "source_port") port
                           || py_eq (get p "destination_port") port))
    | None => Off
    end;
    match active filters "min_size" with
    | Some min_size =>
        On (fun p => py_ge (get_d p "packet_size" (PyInt 0)) min_size)
    | None => Off
    end;
    match active filters "max_size" with
    | Some max_size =>
        On (fun p => py_le (get_d p "packet_size" (PyInt 0)) max_size)
    | None => Off
    end;
    match active filters "start_time" with
    | Some v =>
        match py_fromisoformat v with
        | Some start_time =>
            On (fun p =>
                  t ← py_fromisoformat
                        (get_d p "timestamp" (PyStr EmptyString));
                  py_ge (PyDatetime t) (PyDatetime start_time))
        | None => Raises
        end
    | None => Off
    end;
    match active filters "end_time" with
    | Some v =>
        match py_fromisoformat v with
        | Some end_time =>
            On (fun p =>
                  t ← py_fromisoformat
                        (get_d p "timestamp" (PyStr EmptyString));
                  py_le (PyDatetime t) (PyDatetime end_time))
        | None => Raises
        end
    | None => Off
    end ].

End Criteria.

(** A record whose byte size, as the filters read it, is an integer. *)
Definition int_sized (p : pydict) : Prop :=
  exists n : Z, get_d p "packet_size" (PyInt 0) = PyInt n.

(** A size criterion that is absent, falsy or an integer. *)
Definition int_or_off (o : option pyval) : Prop :=
  match o with
  | None | Some (PyInt _) => True
  | Some _ => False
  end.

(** ** A concrete run-time and sample data *)

Module Sample.

(** Times before the epoch are taken to be out of range. *)
Definition from_epoch (t : Q) : option datetime :=
  if Qle_bool (inject_Z 0) t
  then Some (DateTime false (Qnum t * 1000000 / Zpos (Qden t)))
  else None.

Definition quote (s : string) : string :=
  let q := String (Ascii.ascii_of_nat 34) EmptyString in
  q +:+ s +:+ q.

(** Compact JSON text, for strings that need no escaping. *)
Fixpoint dumps (j : json) : string :=
  match j with
  | JInt n => pretty n
  | JStr s => quote s
  | JArr items => "[" +:+ String.concat ", " (map dumps items) +:+ "]"
  | JObj members =>
      "{" +:+ String.concat ", "
                (map (fun kv => let '(k, v) := kv in
                                quote k +:+ ": " +:+ dumps v) members)
          +:+ "}"
  end.

(** One letter per flag bit that is set, lowest bit first. *)
Definition flag_letters (x : Z) : string :=
  String.concat EmptyString
    (omap (fun '(i, name) => if Z.testbit x i then Some name else None)
          [(0, "F"); (1, "S"); (2, "R"); (3, "P"); (4, "A");
           (5, "U"); (6, "E"); (7, "C"); (8, "N")]).

(** The part of a path after its last slash. *)
Fixpoint last_component_from (acc path : string) : string :=
  match path with
  | EmptyString => acc
  | String c rest =>
      if Ascii.eqb c "/"%char then last_component_from EmptyString rest
      else last_component_from (acc +:+ String c EmptyString) rest
  end.

Definition last_component (path : string) : string :=
  last_component_from EmptyString path.

Definition tcp_frame : packet :=
  {| time := 1704067200 # 1; length_bytes := 80;
     layers := [Layer "Ethernet";
                IP {| src := "192.168.1.100"; dst := "192.168.1.1" |};
                TCP {| tcp_sport := 12345; tcp_dport := 80; flags := 18;
                       seq := 1000; ack := 2000; window := 8192 |};
                Layer "Raw"];
     summary := "Ether / IP / TCP 192.168.1.100:12345 > 192.168.1.1:http SA / Raw" |}.

Definition udp_frame : packet :=
  {| time := 1704067201 # 1; length_bytes := 60;
     layers := [Layer "Ethernet";
                IP {| src := "192.168.1.200"; dst := "8.8.8.8" |};
                UDP {| udp_sport := 5353; udp_dport := 53;
                       len := 26; chksum := 4660 |};
                Layer "Raw"];
     summary := "Ether / IP / UDP 192.168.1.200:5353 > 8.8.8.8:domain / Raw" |}.

Definition arp_frame : packet :=
  {| time := 1704067202 # 1; length_bytes := 40;
     layers := [Layer "Ethernet"; Layer "ARP"];
     summary := "Ether / ARP who has 192.168.1.1 says 192.168.1.100" |}.

(** A frame whose capture time does not convert. *)
Definition bad_frame : packet :=
  {| time := (-1) # 1; length_bytes := 54;
     layers := [Layer "Ethernet";
                IP {| src := "10.0.0.1"; dst := "10.0.0.2" |};
                TCP {| tcp_sport := 1; tcp_dport := 2; flags := 2;
                       seq := 0; ack := 0; window := 0 |}];
     summary := "Ether / IP / TCP 10.0.0.1:1 > 10.0.0.2:2 S" |}.

Definition frames : list packet :=
  [tcp_frame; bad_frame; udp_frame; arp_frame].

Definition read_capture (path : string) : option (list packet) :=
  if String.eqb path "pcap_files/a.pcap" then Some frames else None.

(** Two instants of the ISO format, anything else is rejected. *)
Definition from_iso (s : string) : option datetime :=
  if String.eqb s "2024-01-01T00:00:00"
  then Some (DateTime false 1704067200000000)
  else if String.eqb s "2024-01-01T00:00:01"
  then Some (DateTime false 1704067201000000)
  else None.

(** Records as they are read back from the store. *)
Definition tcp_record : pydict :=
  list_to_map
    [("timestamp", PyStr "2024-01-01T00:00:00");
     ("source_ip", PyStr "192.168.1.100");
     ("destination_ip", PyStr "192.168.1.1");
     ("source_port", PyInt 12345); ("destination_port", PyInt 80);
     ("protocol", PyStr "TCP"); ("packet_size", PyInt 80);
     ("file_name", PyStr "a.pcap")].

Definition udp_record : pydict :=
  list_to_map
    [("timestamp", PyStr "2024-01-01T00:00:01");
     ("source_ip", PyStr "192.168.1.200");
     ("destination_ip", PyStr "8.8.8.8");
     ("source_port", PyInt 5353); ("destination_port", PyInt 53);
     ("protocol", PyStr "UDP"); ("packet_size", PyInt 60);
     ("file_name", PyStr "a.pcap")].

Definition other_record : pydict :=
  list_to_map
    [("timestamp", PyStr "2024-01-01T00:00:01");
     ("source_ip", PyNone); ("destination_ip", PyNone);
     ("source_port", PyNone); ("destination_port", PyNone);
     ("protocol", PyStr "Other"); ("packet_size", PyInt 40);
     ("file_name", PyStr "a.pcap")].

Definition records : list pydict := [tcp_record; udp_record; other_record].

(** The library made of these functions. *)
Definition library : Library :=
  {| fromtimestamp := from_epoch;
     fromisoformat := from_iso;
     json_dumps := dumps;
     flags_str := flag_letters;
     rdpcap := read_capture;
     basename := last_component |}.

End Sample.

(** ** [parse_directory] *)

(** [c.lower()] on one byte: the letters A-Z are lowered, every other byte
    is kept.  (Strings are UTF-8 byte strings; no character outside ASCII
    lowers to a letter of [.pcap] or [.pcapng].) *)
Definition lower_ascii (c : ascii) : ascii :=
  let n := nat_of_ascii c in
  if (65 <=? n)%nat && (n <=? 90)%nat then ascii_of_nat (n + 32) else c.

(** [s.lower()] *)
Fixpoint lower (s : string) : string :=
  match s with
  | EmptyString => EmptyString
  | String c s' => String (lower_ascii c) (lower s')
  end.

(** [s.endswith(suffix)]: some tail of [s] is [suffix]. *)
Fixpoint endswith (s suffix : string) : bool :=
  String.eqb s suffix
  || match s with
     | EmptyString => false
     | String _ s' => endswith s' suffix
     end.

(** [f.lower().endswith(('.pcap', '.pcapng'))] *)
Definition is_pcap_name (f : string) : bool :=
  endswith (lower f) ".pcap" || endswith (lower f) ".pcapng".

(** The functions of [os] and [os.path] that [parse_directory] calls.
    [listdir] raises ([None]) when the path cannot be listed. *)
Class Filesystem := {
  path_exists : string -> bool;
  listdir : string -> option (list string);
  path_join : string -> string -> string
}.

(** What [parse_directory] logs: its own messages and those of
    [parse_pcap_file]. *)
Inductive dir_event : Type :=
  | ErrorNoDirectory (directory_path : string)
  | WarnNoFiles (directory_path : string)
  | InfoFound (count : nat) (directory_path : string)
  | FromFile (e : log_event)
  | InfoTotal (count : nat).

Section ParseDirectory.

Context {lib : Library} {fs : Filesystem}.

(** One turn of the loop over the capture files. *)
Definition directory_step (max_packets_per_file : Z) (directory_path : string)
    (st : list pydict * list dir_event) (pcap_file : string)
  : list pydict * list dir_event :=
  let file_path := path_join directory_path pcap_file in
  let '(packets_data, logged) :=
    parse_pcap_file max_packets_per_file file_path in
  (st.1 ++ packets_data, st.2 ++ map FromFile logged).

(** [parse_directory]: the records and the log; [None] when [os.listdir]
    raises, which the function does not catch. *)
Definition parse_directory (max_packets_per_file : Z) (directory_path : string)
  : option (list pydict * list dir_event) :=
  if negb (path_exists directory_path)
  then Some ([], [ErrorNoDirectory directory_path])
  else
    files ← listdir directory_path;
    let pcap_files := List.filter is_pcap_name files in
    match pcap_files with
    | [] => Some ([], [WarnNoFiles directory_path])
    | _ :: _ =>
        let '(all_packets, log) :=
          foldl (directory_step max_packets_per_file directory_path)
                ([], [InfoFound (length pcap_files) directory_path])
                pcap_files in
        Some (all_packets, log ++ [InfoTotal (length all_packets)])
    end.

End ParseDirectory.

(** The messages of [parse_pcap_file] within a directory log. *)
Definition from_file (e : dir_event) : option log_event :=
  match e with FromFile e' => Some e' | _ => None end.

#[global] Instance log_event_eq_dec : EqDecision log_event.
Proof. solve_decision. Defined.

(** The number of extraction errors in a log. *)
Definition extraction_errors (log : list log_event) : nat :=
  length (List.filter (fun e => bool_decide (e = ErrorExtracting)) log).

(** ** Records that match a set of criteria *)

(** A record passes a criterion that is switched off, and one whose
    condition evaluates to true. *)
Definition passes (c : criterion) (p : pydict) : bool :=
  match c with
  | Off => true
  | Raises => false
  | On cond => bool_decide (cond p = Some true)
  end.

Section Matches.

Context {lib : Library}.

(** A record passes every criterion of [filters]. *)
Definition matches (filters : pydict) (p : pydict) : bool :=
  forallb (fun c => passes c p) (criteria filters).

End Matches.

(** ** Reading a frequency dictionary *)

(** [c.get(k, 0)] *)
Fixpoint counter_get (c : counter) (k : pyval) : nat :=
  match c with
  | [] => 0%nat
  | (k', n) :: c' => if decide (k' = k) then n else counter_get c' k
  end.

(** The byte size of a record as the statistics read it. *)
Definition size_of (p : pydict) : pyval := get_d p "packet_size" (PyInt 0).

(** The protocol of a record as the statistics read it. *)
Definition protocol_of (p : pydict) : pyval :=
  get_d p "protocol" (PyStr "Unknown").

(** ** The name of the statistics file *)






(** ** More sample data *)

Module Demo.

Definition icmp_frame : packet :=
  {| time := 1704067203 # 1; length_bytes := 98;
     layers := [Layer "Ethernet";
                IP {| src := "192.168.1.100"; dst := "8.8.8.8" |};
                ICMP {| type := 8; code := 0 |};
                Layer "Raw"];
     summary := "Ether / IP / ICMP 192.168.1.100 > 8.8.8.8 echo-request 0 / Raw" |}.

(** An IPv4 frame that carries neither TCP, UDP nor ICMP. *)
Definition gre_frame : packet :=
  {| time := 1704067204 # 1; length_bytes := 62;
     layers := [Layer "Ethernet";
                IP {| src := "10.0.0.1"; dst := "10.0.0.2" |};
                Layer "GRE"];
     summary := "Ether / IP / GRE" |}.

Definition tcp6_frame : packet :=
  {| time := 1704067205 # 1; length_bytes := 74;
     layers := [Layer "Ethernet";
                IPv6 {| src := "fe80::1"; dst := "fe80::2" |};
                TCP {| tcp_sport := 40000; tcp_dport := 443; flags := 2;
                       seq := 7; ack := 0; window := 64240 |}];
     summary := "Ether / IPv6 / TCP fe80::1:40000 > fe80::2:https S" |}.

(** IPv6 carried in IPv4. *)
Definition tunnel_frame : packet :=
  {| time := 1704067206 # 1; length_bytes := 94;
     layers := [Layer "Ethernet";
                IP {| src := "192.0.2.1"; dst := "192.0.2.2" |};
                IPv6 {| src := "2001:db8::1"; dst := "2001:db8::2" |};
                TCP {| tcp_sport := 40001; tcp_dport := 80; flags := 16;
                       seq := 1; ack := 1; window := 512 |}];
     summary := "Ether / IP / IPv6 / TCP 2001:db8::1:40001 > 2001:db8::2:http A" |}.

(** A directory with one capture that can be read, one that cannot, and one
    file that is no capture. *)
Definition filesystem : Filesystem :=
  {| path_exists := fun d => String.eqb d "pcap_files";
     listdir := fun d =>
       if String.eqb d "pcap_files"
       then Some ["a.pcap"; "notes.txt"; "B.PCAP"] else None;
     path_join := fun d f => d +:+ "/" +:+ f |}.

(** A record without a timestamp, and one whose size is [None]. *)
Definition untimed_record : pydict :=
  list_to_map [("protocol", PyStr "TCP"); ("packet_size", PyInt 66)].


(** The first record parsed from the sample capture. *)
Definition first_record : pydict :=
  default ∅
    ((@parse_pcap_file Sample.library 10 "pcap_files/a.pcap").1 !! 0%nat).

End Demo.

(** * Properties of [pcap_parser.py] *)

Section PCAPParserProofs.

Context {lib : Library}.

Lemma haslayer_getitem {H : Type} (p : packet) (cls : layer -> option H) :
  haslayer p cls = true <-> is_Some (getitem p cls).
Proof.
  unfold haslayer, getitem.
  induction (layers p) as [|l ls IH]; simpl.
  - split; [discriminate | intros [x Hx]; discriminate].
  - destruct (cls l) as [h|]; simpl; [split; eauto | exact IH].
Qed.

Lemma haslayer_getitem_Some {H : Type} (p : packet) (cls : layer -> option H) h :
  getitem p cls = Some h -> haslayer p cls = true.
Proof. intros E. apply haslayer_getitem. eauto. Qed.

Lemma classify_body (p : packet) (file_name : string) :
  classify file_name p = extract_body p file_name.
Proof.
  unfold classify, _extract_packet_info.
  destruct (extract_body p file_name); reflexivity.
Qed.

(** Split [extract_body p f = Some r] into the branches of the source. *)
Ltac body_cases Hr :=
  unfold extract_body in Hr;
  destruct (fromtimestamp _) as [ts|]; simpl in Hr; [|discriminate Hr];
  repeat match type of Hr with
    | context [haslayer ?p ?c] =>
        destruct (haslayer p c) eqn:?; simpl in Hr
    | context [getitem ?p ?c] =>
        destruct (getitem p c) eqn:?; simpl in Hr
    end;
  try discriminate Hr;
  injection Hr as <-.

Lemma body_packet_size (p : packet) (file_name : string) (r : pydict) :
  extract_body p file_name = Some r ->
  r !! "packet_size" = Some (PyInt (Z.of_nat (length_bytes p))).
Proof. intros Hr. body_cases Hr; reflexivity. Qed.

Lemma body_truthy (p : packet) (file_name : string) (r : pydict) :
  extract_body p file_name = Some r -> dict_truthy r = true.
Proof.
  intros Hr. apply body_packet_size in Hr.
  unfold dict_truthy. rewrite bool_decide_eq_false_2; [reflexivity|].
  intros ->. rewrite lookup_empty in Hr. discriminate.
Qed.

(** The body raises exactly when the timestamp cannot be converted. *)
Lemma body_is_Some (p : packet) (file_name : string) :
  is_Some (extract_body p file_name) <-> is_Some (fromtimestamp (time p)).
Proof.
  unfold extract_body.
  destruct (fromtimestamp (time p)) as [ts|]; simpl;
    [|split; intros [x Hx]; discriminate].
  split; [eauto|intros _].
  repeat match goal with
    | |- context [haslayer ?p ?c] =>
        let E := fresh "E" in
        destruct (haslayer p c) eqn:E; simpl;
        [apply haslayer_getitem in E; destruct E as [? ->]; simpl|]
    end; eauto.
Qed.

(** C3: a frame with an IPv4 layer and a TCP layer yields a record
    labelled "TCP", with the ports of the TCP layer and with metadata made
    of exactly the flags (as a string), the sequence number, the
    acknowledgment number and the window size of that layer.  The record is
    produced whenever the capture time converts. *)
Theorem classify_ipv4_tcp (p : packet) (file_name : string) (tcp : tcp_hdr) :
  haslayer p cls_IP = true ->
  getitem p cls_TCP = Some tcp ->
  (is_Some (fromtimestamp (time p)) -> is_Some (classify file_name p)) /\
  (forall r : pydict, classify file_name p = Some r ->
     r !! "protocol" = Some (PyStr "TCP") /\
     r !! "source_port" = Some (PyInt (tcp_sport tcp)) /\
     r !! "destination_port" = Some (PyInt (tcp_dport tcp)) /\
     r !! "packet_data" =
       Some (PyStr (json_dumps (JObj
         [("tcp_flags", JStr (flags_str (flags tcp)));
          ("tcp_seq", JInt (seq tcp));
          ("tcp_ack", JInt (ack tcp));
          ("tcp_window", JInt (window tcp))])))).
Proof.
  intros Hip Htcp. split.
  - rewrite classify_body. apply body_is_Some.
  - intros r Hr. rewrite classify_body in Hr.
    pose proof (haslayer_getitem_Some _ _ _ Htcp) as Hhas.
    unfold extract_body in Hr.
    destruct (fromtimestamp (time p)) as [ts|]; simpl in Hr; [|discriminate].
    rewrite Hip in Hr. destruct (getitem p cls_IP) as [ip|]; simpl in Hr;
      [|discriminate].
    rewrite Hhas, Htcp in Hr. simpl in Hr. injection Hr as <-.
    repeat split; reflexivity.
Qed.


Lemma both_or_neither (o1 o2 : option pyval) :
  (o1 = None /\ o2 = None) \/ (is_Some o1 /\ is_Some o2) ->
  (is_Some o1 <-> is_Some o2).
Proof.
  intros [[-> ->]|[H1 H2]]; split; intros H; try assumption;
    destruct H as [? ?]; discriminate.
Qed.

(** C8: every record the classifier produces has one protocol label out of
    the fixed set, has its two address fields both present or both absent,
    has its two port fields both present or both absent, and has a
    non-negative byte size, the length of the frame. *)
Theorem classify_invariant (p : packet) (file_name : string) (r : pydict) :
  classify file_name p = Some r ->
  (exists label, r !! "protocol" = Some (PyStr label)
                 /\ label ∈ protocol_labels) /\
  (is_Some (r !! "source_ip") <-> is_Some (r !! "destination_ip")) /\
  (is_Some (r !! "source_port") <-> is_Some (r !! "destination_port")) /\
  (exists size, r !! "packet_size" = Some (PyInt size)
                /\ 0 <= size /\ size = Z.of_nat (length_bytes p)).
Proof.
  rewrite classify_body. intros Hr.
  body_cases Hr;
    (split; [eexists; split;
               [reflexivity|unfold protocol_labels; repeat constructor]|]);
    (split; [apply both_or_neither;
               first [left; split; reflexivity
                     |right; split; eexists; reflexivity]|]);
    (split; [apply both_or_neither;
               first [left; split; reflexivity
                     |right; split; eexists; reflexivity]|]);
    (eexists; split; [reflexivity|split; [lia|reflexivity]]).
Qed.

Lemma loop_step_eq (file_name : string) (p : packet)
    (st : list pydict * list log_event) :
  loop_step file_name st p =
  (st.1 ++ option_list (classify file_name p),
   st.2 ++ (_extract_packet_info p file_name).2).
Proof.
  unfold loop_step, classify, _extract_packet_info.
  destruct (extract_body p file_name) as [r|] eqn:Hr; simpl.
  - by rewrite (body_truthy _ _ _ Hr).
  - by rewrite app_nil_r.
Qed.

(** The loop appends the records of the frames that classify, in order,
    and logs one error for each frame that does not. *)
Lemma foldl_loop_step (file_name : string) (ps : list packet)
    (st : list pydict * list log_event) :
  foldl (loop_step file_name) st ps =
  (st.1 ++ omap (classify file_name) ps,
   st.2 ++ flat_map (fun p => (_extract_packet_info p file_name).2) ps).
Proof.
  revert st. induction ps as [|p ps IH]; intros st; simpl.
  - rewrite !app_nil_r. by destruct st.
  - rewrite IH, loop_step_eq. simpl. rewrite <- !app_assoc.
    by destruct (classify file_name p).
Qed.

Lemma parse_pcap_file_eq (cap : Z) (path : string) (packets : list packet) :
  rdpcap path = Some packets ->
  parse_pcap_file cap path =
  (omap (classify (basename path)) (batch cap packets),
   (InfoParsing path ::
    (if negb (cap =? 0) && (Z.of_nat (length packets) >? cap)
     then [WarnLimited cap path] else [])) ++
   flat_map (fun p => (_extract_packet_info p (basename path)).2)
            (batch cap packets) ++
   [InfoParsed
      (length (omap (classify (basename path)) (batch cap packets))) path]).
Proof.
  intros Hrd. unfold parse_pcap_file, batch. rewrite Hrd.
  destruct (negb (cap =? 0) && (Z.of_nat (length packets) >? cap));
    rewrite foldl_loop_step; simpl; reflexivity.
Qed.

Lemma length_omap_le {A B : Type} (f : A -> option B) (l : list A) :
  (length (omap f l) <= length l)%nat.
Proof.
  induction l as [|x l IH]; csimpl; [lia|].
  destruct (f x); csimpl; lia.
Qed.

Lemma omap_filter_Forall2 {A B : Type} (f : A -> option B) (l : list A) :
  Forall2 (fun x y => f x = Some y)
          (filter (fun x => is_Some (f x)) l) (omap f l).
Proof.
  induction l as [|x l IH]; csimpl; [constructor|].
  destruct (f x) as [y|] eqn:E.
  - rewrite filter_cons_True by (rewrite E; eauto).
    constructor; assumption.
  - rewrite filter_cons_False; [assumption|].
    rewrite E. intros [? ?]; discriminate.
Qed.

(** C1, as the code has it: with a cap [k] of at least 1 and more than [k]
    frames in the file, exactly the first [k] frames are classified, in
    their order: the records are those of these frames, an extraction error
    is logged for those of them that fail and for no other frame, and at
    most [k] records come out. *)
Theorem cap_keeps_first_k (k : Z) (path : string) (packets : list packet) :
  rdpcap path = Some packets ->
  0 < k ->
  k < Z.of_nat (length packets) ->
  let first_k := take (Z.to_nat k) packets in
  (parse_pcap_file k path).1 = omap (classify (basename path)) first_k /\
  (parse_pcap_file k path).2 =
    [InfoParsing path; WarnLimited k path] ++
    flat_map (fun p => (_extract_packet_info p (basename path)).2) first_k ++
    [InfoParsed (length (parse_pcap_file k path).1) path] /\
  (length (parse_pcap_file k path).1 <= Z.to_nat k)%nat.
Proof.
  intros Hrd Hk Hn first_k.
  rewrite (parse_pcap_file_eq _ _ _ Hrd). simpl.
  assert (Hb : batch k packets = first_k).
  { unfold batch, slice_to.
    replace (k =? 0) with false by lia.
    replace (Z.of_nat (length packets) >? k) with true by lia.
    simpl. replace (0 <=? k) with true by lia. reflexivity. }
  rewrite Hb.
  replace (k =? 0) with false by lia.
  replace (Z.of_nat (length packets) >? k) with true by lia. simpl.
  repeat split.
  etransitivity; [apply length_omap_le|].
  subst first_k. rewrite length_take. lia.
Qed.

(** C9: within the batch of one file, a frame whose extraction fails is
    skipped and the frames after it are still processed; a frame that
    classifies contributes its record at its place; and the records are, in
    order and one for one, those of the frames that classify. *)
Theorem failing_frame_is_skipped (cap : Z) (path : string)
    (packets : list packet) :
  rdpcap path = Some packets ->
  let records := (parse_pcap_file cap path).1 in
  let file_name := basename path in
  (forall before p after,
      batch cap packets = before ++ p :: after ->
      classify file_name p = None ->
      records = omap (classify file_name) before
                ++ omap (classify file_name) after) /\
  (forall before p after r,
      batch cap packets = before ++ p :: after ->
      classify file_name p = Some r ->
      records = omap (classify file_name) before
                ++ r :: omap (classify file_name) after) /\
  Forall2 (fun p r => classify file_name p = Some r)
          (filter (fun p => is_Some (classify file_name p))
                  (batch cap packets))
          records.
Proof.
  intros Hrd records file_name. subst records file_name.
  rewrite (parse_pcap_file_eq _ _ _ Hrd). simpl.
  split; [|split].
  - intros before p after Hb Hp. rewrite Hb, omap_app. simpl.
    by rewrite Hp.
  - intros before p after r Hb Hp. rewrite Hb, omap_app. simpl.
    by rewrite Hp.
  - apply omap_filter_Forall2.
Qed.

End PCAPParserProofs.

(** * Properties of [json_exporter.py] *)

Section ComprehensionFacts.

Context {A : Type} (cond : A -> option bool).

Lemma comprehension_sublist (l l' : list A) :
  comprehension cond l = Some l' -> l' `sublist_of` l.
Proof.
  revert l'. induction l as [|x l IH]; simpl; intros l' H.
  - injection H as <-. constructor.
  - destruct (cond x) as [b|]; simpl in H; [|discriminate].
    destruct (comprehension cond l) as [rest|]; simpl in H; [|discriminate].
    injection H as <-. destruct b; constructor; by apply IH.
Qed.

Lemma comprehension_holds (l l' : list A) :
  comprehension cond l = Some l' -> Forall (fun x => cond x = Some true) l'.
Proof.
  revert l'. induction l as [|x l IH]; simpl; intros l' H.
  - injection H as <-. constructor.
  - destruct (cond x) as [b|] eqn:E; simpl in H; [|discriminate].
    destruct (comprehension cond l) as [rest|]; simpl in H; [|discriminate].
    injection H as <-. destruct b; [constructor|]; auto.
Qed.

Lemma comprehension_fixed (l : list A) :
  Forall (fun x => cond x = Some true) l -> comprehension cond l = Some l.
Proof.
  induction 1 as [|x l Hx _ IH]; simpl; [reflexivity|].
  by rewrite Hx, IH.
Qed.

Lemma comprehension_is_Some (l : list A) :
  Forall (fun x => is_Some (cond x)) l -> is_Some (comprehension cond l).
Proof.
  induction 1 as [|x l [b Hb] _ [rest IH]]; simpl; [eauto|].
  rewrite Hb, IH. simpl. eauto.
Qed.

End ComprehensionFacts.

Lemma Forall_sublist {A : Type} (P : A -> Prop) (l l' : list A) :
  l' `sublist_of` l -> Forall P l -> Forall P l'.
Proof.
  induction 1 as [|x l1 l2 _ IH|x l1 l2 _ IH]; intros H.
  - constructor.
  - inversion H; subst. constructor; auto.
  - inversion H; subst. auto.
Qed.

Lemma run_sublist (c : criterion) (l l' : list pydict) :
  run c l = Some l' -> l' `sublist_of` l.
Proof.
  destruct c; simpl; intros H.
  - by injection H as <-.
  - discriminate.
  - by eapply comprehension_sublist.
Qed.

Lemma run_all_sublist (cs : list criterion) (l l' : list pydict) :
  run_all cs l = Some l' -> l' `sublist_of` l.
Proof.
  revert l. induction cs as [|c cs IH]; simpl; intros l H.
  - by injection H as <-.
  - destruct (run c l) as [l1|] eqn:E; simpl in H; [|discriminate].
    etransitivity; [by apply IH | by eapply run_sublist].
Qed.

Lemma run_all_accepts (cs : list criterion) (l l' : list pydict) :
  run_all cs l = Some l' -> Forall (accepts l') cs.
Proof.
  revert l. induction cs as [|c cs IH]; simpl; intros l H; [constructor|].
  destruct (run c l) as [l1|] eqn:E; simpl in H; [|discriminate].
  constructor; [|by eapply IH].
  destruct c; simpl in *; [exact I|discriminate|].
  eapply Forall_sublist; [by eapply run_all_sublist|].
  by eapply comprehension_holds.
Qed.

Lemma run_all_fixed (cs : list criterion) (l : list pydict) :
  Forall (accepts l) cs -> run_all cs l = Some l.
Proof.
  induction 1 as [|c cs Hc _ IH]; simpl; [reflexivity|].
  assert (run c l = Some l) as ->; [|exact IH].
  destruct c; simpl in *; [reflexivity|contradiction|].
  by apply comprehension_fixed.
Qed.

Lemma run_all_idempotent (cs : list criterion) (l : list pydict) :
  run_all cs l ≫= run_all cs = run_all cs l.
Proof.
  destruct (run_all cs l) as [l'|] eqn:E; simpl; [|reflexivity].
  apply run_all_fixed. by eapply run_all_accepts.
Qed.

Lemma run_all_is_Some (cs : list criterion) (l : list pydict) :
  Forall (defined_on l) cs -> is_Some (run_all cs l).
Proof.
  revert l. induction cs as [|c cs IH]; simpl; intros l H; [eauto|].
  inversion H as [|? ? Hc Hcs]; subst.
  assert (exists l1, run c l = Some l1) as [l1 E].
  { destruct c; simpl in *; [eauto|contradiction|].
    by apply comprehension_is_Some. }
  rewrite E. simpl. apply IH.
  eapply Forall_impl; [exact Hcs|].
  intros c' Hc'. destruct c'; simpl in *; auto.
  eapply Forall_sublist; [by eapply run_sublist|assumption].
Qed.

Section JSONExporterProofs.

Context {lib : Library}.

Lemma apply_filters_run_all (R : list pydict) (S : pydict) :
  _apply_filters R S = run_all (criteria S) R.
Proof.
  unfold _apply_filters, criteria, run_all.
  repeat match goal with
    | |- context [active S ?k] => destruct (active S k); simpl
    end;
  repeat match goal with
    | |- context [py_fromisoformat ?v] =>
        destruct (py_fromisoformat v); simpl
    end;
  repeat (apply option_bind_ext_fun; intros ?); try reflexivity;
  match goal with |- ?m = ?m ≫= _ => by destruct m end.
Qed.

(** C5: filtering is idempotent.  Filtering the result of a filter run
    with the same criteria gives that result again; when the first run
    raises there is no result to filter, and both sides raise. *)
Theorem apply_filters_idempotent (R : list pydict) (S : pydict) :
  _apply_filters R S ≫= (fun R' => _apply_filters R' S) = _apply_filters R S.
Proof.
  rewrite apply_filters_run_all.
  rewrite <- (run_all_idempotent (criteria S) R) at 2.
  apply option_bind_ext_fun. intros R'. apply apply_filters_run_all.
Qed.

Lemma criteria_defined (R : list pydict) (S : pydict) :
  Forall int_sized R ->
  int_or_off (active S "min_size") ->
  int_or_off (active S "max_size") ->
  active S "start_time" = None ->
  active S "end_time" = None ->
  Forall (defined_on R) (criteria S).
Proof.
  intros HR Hmin Hmax Hst Hen. unfold criteria. rewrite Hst, Hen.
  repeat constructor;
    try match goal with
      | |- defined_on _ (match active S ?k with _ => _ end) =>
          destruct (active S k) as [v|]; simpl; [|exact I]
      end;
    try (apply Forall_forall; intros; eauto; fail).
  - destruct v; try contradiction.
    eapply Forall_impl; [exact HR|]. intros p [m ->]. simpl. eauto.
  - destruct v; try contradiction.
    eapply Forall_impl; [exact HR|]. intros p [m ->]. simpl. eauto.
Qed.

(** C6: the output of a filter run is a subsequence of its input, in the
    same order, so it is no longer than the input; the empty set of
    criteria returns the input unchanged; and the run returns a result
    whenever the sizes it compares are integers and no time criterion is
    set. *)
Theorem apply_filters_subsequence (R : list pydict) (S : pydict) :
  (forall R', _apply_filters R S = Some R' ->
              R' `sublist_of` R /\ (length R' <= length R)%nat) /\
  _apply_filters R ∅ = Some R /\
  (Forall int_sized R ->
   int_or_off (active S "min_size") ->
   int_or_off (active S "max_size") ->
   active S "start_time" = None ->
   active S "end_time" = None ->
   is_Some (_apply_filters R S)).
Proof.
  split; [|split].
  - intros R' H. rewrite apply_filters_run_all in H.
    apply run_all_sublist in H. split; [exact H|by apply sublist_length].
  - reflexivity.
  - intros. rewrite apply_filters_run_all. apply run_all_is_Some.
    by apply criteria_defined.
Qed.

Lemma active_insert_falsy (S : pydict) (k k' : string) (v : pyval) :
  truthy v = false -> active (<[k := v]> S) k' = active (delete k S) k'.
Proof.
  intros Hv. unfold active. destruct (decide (k = k')) as [->|Hne].
  - by rewrite lookup_insert_eq, lookup_delete_eq, Hv.
  - by rewrite lookup_insert_ne, lookup_delete_ne.
Qed.

Lemma apply_filters_falsy (R : list pydict) (S : pydict) (k : string)
    (v : pyval) :
  truthy v = false ->
  _apply_filters R (<[k := v]> S) = _apply_filters R (delete k S).
Proof.
  intros Hv. rewrite !apply_filters_run_all. f_equal.
  unfold criteria. by rewrite !active_insert_falsy.
Qed.

(** C10: a criterion that is present with a falsy value (the empty string
    as protocol, 0 as port, as minimum size or as maximum size) filters
    exactly as the criteria without that field do. *)
Theorem falsy_criterion_is_absent (R : list pydict) (S : pydict) :
  _apply_filters R (<["protocol" := PyStr EmptyString]> S)
    = _apply_filters R (delete "protocol" S) /\
  _apply_filters R (<["port" := PyInt 0]> S)
    = _apply_filters R (delete "port" S) /\
  _apply_filters R (<["min_size" := PyInt 0]> S)
    = _apply_filters R (delete "min_size" S) /\
  _apply_filters R (<["max_size" := PyInt 0]> S)
    = _apply_filters R (delete "max_size" S).
Proof. repeat split; by apply apply_filters_falsy. Qed.

End JSONExporterProofs.

(** ** Statistics *)

Lemma py_sum_ints (zs : list Z) (a : Z) :
  foldl py_add (Some a) (map PyInt zs) = Some (a + foldr Z.add 0 zs).
Proof.
  revert a. induction zs as [|z zs IH]; intros a; simpl.
  - f_equal. lia.
  - rewrite IH. f_equal. lia.
Qed.

Lemma min_from_ints (zs : list Z) (b : Z) :
  exists m, min_from (PyInt b) (map PyInt zs) = Some (PyInt m)
            /\ m ∈ b :: zs /\ (forall x, x ∈ b :: zs -> m <= x).
Proof.
  revert b. induction zs as [|z zs IH]; intros b; simpl.
  - exists b. split; [reflexivity|]. split; [by left|].
    intros x Hx. apply list_elem_of_singleton in Hx. lia.
  - replace (if z <? b then PyInt z else PyInt b)
      with (PyInt (if z <? b then z else b)) by (by destruct (z <? b)).
    destruct (IH (if z <? b then z else b)) as (m & Hm & Hin & Hle).
    exists m. split; [exact Hm|]. split.
    + apply elem_of_cons in Hin as [->|Hin].
      * destruct (z <? b); [right; left|left].
      * right. by right.
    + intros x Hx.
      assert (m <= (if z <? b then z else b)) as Hb by (apply Hle; left).
      apply elem_of_cons in Hx as [->|Hx].
      * destruct (z <? b) eqn:E; lia.
      * apply elem_of_cons in Hx as [->|Hx].
        -- destruct (z <? b) eqn:E; lia.
        -- apply Hle. by right.
Qed.

Lemma max_from_ints (zs : list Z) (b : Z) :
  exists m, max_from (PyInt b) (map PyInt zs) = Some (PyInt m)
            /\ m ∈ b :: zs /\ (forall x, x ∈ b :: zs -> x <= m).
Proof.
  revert b. induction zs as [|z zs IH]; intros b; simpl.
  - exists b. split; [reflexivity|]. split; [by left|].
    intros x Hx. apply list_elem_of_singleton in Hx. lia.
  - replace (if b <? z then PyInt z else PyInt b)
      with (PyInt (if b <? z then z else b)) by (by destruct (b <? z)).
    destruct (IH (if b <? z then z else b)) as (m & Hm & Hin & Hle).
    exists m. split; [exact Hm|]. split.
    + apply elem_of_cons in Hin as [->|Hin].
      * destruct (b <? z); [right; left|left].
      * right. by right.
    + intros x Hx.
      assert ((if b <? z then z else b) <= m) as Hb by (apply Hle; left).
      apply elem_of_cons in Hx as [->|Hx].
      * destruct (b <? z) eqn:E; lia.
      * apply elem_of_cons in Hx as [->|Hx].
        -- destruct (b <? z) eqn:E; lia.
        -- apply Hle. by right.
Qed.



(** C2, as the code has it: for the empty sequence of records the
    statistics are the empty dictionary, which has no field at all, and
    nothing is raised. *)
Theorem statistics_of_no_records :
  exists report : gmap string statval,
    _calculate_statistics [] = Some report /\
    report = ∅ /\
    forall field : string, report !! field = None.
Proof.
  exists ∅. split; [reflexivity|]. split; [reflexivity|].
  intros field. apply lookup_empty.
Qed.

(** * Concrete runs *)

#[local] Existing Instance Sample.library.

(** The TCP frame of the sample capture is classified as "TCP" with its own
    ports. *)
Lemma classify_ipv4_tcp_sample :
  exists r : pydict,
    classify "a.pcap" Sample.tcp_frame = Some r /\
    r !! "protocol" = Some (PyStr "TCP") /\
    r !! "source_port" = Some (PyInt 12345) /\
    r !! "destination_port" = Some (PyInt 80).
Proof.
  destruct (classify_ipv4_tcp (lib := Sample.library) Sample.tcp_frame "a.pcap"
              {| tcp_sport := 12345; tcp_dport := 80; flags := 18;
                 seq := 1000; ack := 2000; window := 8192 |}
              eq_refl eq_refl) as [Hsome Hprops].
  destruct Hsome as [r Hr]; [eexists; reflexivity|].
  exists r. destruct (Hprops r Hr) as (Hlabel & Hsport & Hdport & _).
  repeat split; assumption.
Defined.


(** The record of the UDP frame of the sample capture has both ports. *)
Lemma classify_invariant_sample :
  exists r : pydict,
    classify "a.pcap" Sample.udp_frame = Some r /\
    (is_Some (r !! "source_port") <-> is_Some (r !! "destination_port")).
Proof.
  eexists. split; [reflexivity|].
  apply (classify_invariant (lib := Sample.library)
           Sample.udp_frame "a.pcap" _ eq_refl).
Defined.

(** With a cap of 2 the sample capture of four frames gives the records of
    its first two frames, the second of which fails. *)
Lemma cap_keeps_first_k_sample :
  (parse_pcap_file 2 "pcap_files/a.pcap").1
  = omap (classify "a.pcap") [Sample.tcp_frame; Sample.bad_frame].
Proof.
  apply (cap_keeps_first_k (lib := Sample.library) 2
           "pcap_files/a.pcap" Sample.frames eq_refl);
    [lia | simpl; lia].
Defined.

(** With a cap of 0 all four frames of the sample capture are classified,
    not the first 0 of them: three records come out. *)
Lemma cap_zero_keeps_all_frames :
  rdpcap "pcap_files/a.pcap" = Some Sample.frames /\
  0 < Z.of_nat (length Sample.frames) /\
  (parse_pcap_file 0 "pcap_files/a.pcap").1
  <> omap (classify "a.pcap") (take (Z.to_nat 0) Sample.frames) /\
  length (parse_pcap_file 0 "pcap_files/a.pcap").1 = 3%nat.
Proof.
  split; [reflexivity|]. split; [simpl; lia|]. split; [|reflexivity].
  intros H. apply (f_equal length) in H. vm_compute in H. discriminate H.
Defined.

(** The failing second frame of the sample capture is skipped and the two
    frames after it are classified. *)
Lemma failing_frame_is_skipped_sample :
  (parse_pcap_file 10 "pcap_files/a.pcap").1
  = omap (classify "a.pcap") [Sample.tcp_frame]
    ++ omap (classify "a.pcap") [Sample.udp_frame; Sample.arp_frame].
Proof.
  destruct (failing_frame_is_skipped (lib := Sample.library) 10
              "pcap_files/a.pcap" Sample.frames eq_refl) as (Hskip & _ & _).
  apply (Hskip [Sample.tcp_frame] Sample.bad_frame
               [Sample.udp_frame; Sample.arp_frame] eq_refl eq_refl).
Defined.

(** Filtering the sample records by protocol returns a subsequence. *)
Lemma apply_filters_subsequence_sample :
  let S : pydict := {["protocol" := PyStr "TCP"]} in
  is_Some (_apply_filters Sample.records S) /\
  (forall R', _apply_filters Sample.records S = Some R' ->
              R' `sublist_of` Sample.records) /\
  _apply_filters Sample.records S
  = Some [Sample.tcp_record].
Proof.
  intros S.
  destruct (apply_filters_subsequence (lib := Sample.library) Sample.records S)
    as (Hsub & _ & Hsome).
  split; [|split].
  - apply Hsome; try exact I; try reflexivity.
    repeat constructor; eexists; reflexivity.
  - intros R' HR'. apply (Hsub R' HR').
  - reflexivity.
Defined.


(** The statistics of no records have no total: the claimed total of 0 is
    not there. *)
Lemma empty_statistics_have_no_total :
  ~ exists report : gmap string statval,
      _calculate_statistics [] = Some report /\
      report !! "total_packets" = Some (StInt 0).
Proof.
  intros (report & Hrep & Htotal).
  injection Hrep as <-. rewrite lookup_empty in Htotal. discriminate Htotal.
Defined.

(** * Further properties of the classifier *)

Lemma iff_bool_decide (P Q : Prop) `{Decision P, Decision Q} :
  bool_decide P = bool_decide Q -> (P <-> Q).
Proof.
  intros E. rewrite <- (bool_decide_eq_true P), <- (bool_decide_eq_true Q).
  by rewrite E.
Qed.

Section ClassifierBranches.

Context {lib : Library}.

(** Split [extract_body p f = Some r] into the branches of the source. *)
Ltac branch_cases Hr :=
  unfold extract_body in Hr;
  destruct (fromtimestamp _) as [ts|] eqn:Hts; simpl in Hr;
    [|discriminate Hr];
  repeat match type of Hr with
    | context [haslayer ?p ?c] =>
        destruct (haslayer p c) eqn:?; simpl in Hr
    | context [getitem ?p ?c] =>
        destruct (getitem p c) eqn:?; simpl in Hr
    end;
  try discriminate Hr;
  injection Hr as <-.

Lemma body_file_name (p : packet) (file_name : string) (r : pydict) :
  extract_body p file_name = Some r ->
  r !! "file_name" = Some (PyStr file_name).
Proof. intros Hr. branch_cases Hr; reflexivity. Qed.

Lemma body_label (p : packet) (file_name : string) (r : pydict) :
  extract_body p file_name = Some r ->
  exists label, r !! "protocol" = Some (PyStr label)
                /\ label ∈ protocol_labels.
Proof.
  intros Hr.
  branch_cases Hr; eexists; (split; [reflexivity|]);
    unfold protocol_labels; repeat constructor.
Qed.

(** X1: a frame with an IPv4 layer and a UDP layer but no TCP layer yields a
    record labelled "UDP", with the ports of the UDP layer and with metadata
    made of the length and the checksum of that layer. *)
Theorem classify_ipv4_udp (p : packet) (file_name : string) (udp : udp_hdr) :
  haslayer p cls_IP = true ->
  haslayer p cls_TCP = false ->
  getitem p cls_UDP = Some udp ->
  (is_Some (fromtimestamp (time p)) -> is_Some (classify file_name p)) /\
  (forall r : pydict, classify file_name p = Some r ->
     r !! "protocol" = Some (PyStr "UDP") /\
     r !! "source_port" = Some (PyInt (udp_sport udp)) /\
     r !! "destination_port" = Some (PyInt (udp_dport udp)) /\
     r !! "packet_data" =
       Some (PyStr (json_dumps (JObj
         [("udp_length", JInt (len udp));
          ("udp_checksum", JInt (chksum udp))])))).
Proof.
  intros Hip Htcp Hudp. split.
  - rewrite classify_body. apply body_is_Some.
  - intros r Hr. rewrite classify_body in Hr.
    pose proof (haslayer_getitem_Some _ _ _ Hudp) as Hhas.
    unfold extract_body in Hr.
    destruct (fromtimestamp (time p)) as [ts|]; simpl in Hr; [|discriminate].
    rewrite Hip in Hr. destruct (getitem p cls_IP) as [ip|]; simpl in Hr;
      [|discriminate].
    rewrite Htcp, Hhas, Hudp in Hr. simpl in Hr. injection Hr as <-.
    repeat split; reflexivity.
Qed.

(** X2: a frame with an IPv4 layer and an ICMP layer but neither TCP nor UDP
    yields a record labelled "ICMP", without port fields, with metadata made
    of the ICMP type and code. *)
Theorem classify_ipv4_icmp (p : packet) (file_name : string)
    (icmp : icmp_hdr) :
  haslayer p cls_IP = true ->
  haslayer p cls_TCP = false ->
  haslayer p cls_UDP = false ->
  getitem p cls_ICMP = Some icmp ->
  (is_Some (fromtimestamp (time p)) -> is_Some (classify file_name p)) /\
  (forall r : pydict, classify file_name p = Some r ->
     r !! "protocol" = Some (PyStr "ICMP") /\
     r !! "source_port" = None /\
     r !! "destination_port" = None /\
     r !! "packet_data" =
       Some (PyStr (json_dumps (JObj
         [("icmp_type", JInt (type icmp));
          ("icmp_code", JInt (code icmp))])))).
Proof.
  intros Hip Htcp Hudp Hicmp. split.
  - rewrite classify_body. apply body_is_Some.
  - intros r Hr. rewrite classify_body in Hr.
    pose proof (haslayer_getitem_Some _ _ _ Hicmp) as Hhas.
    unfold extract_body in Hr.
    destruct (fromtimestamp (time p)) as [ts|]; simpl in Hr; [|discriminate].
    rewrite Hip in Hr. destruct (getitem p cls_IP) as [ip|]; simpl in Hr;
      [|discriminate].
    rewrite Htcp, Hudp, Hhas, Hicmp in Hr. simpl in Hr. injection Hr as <-.
    repeat split; reflexivity.
Qed.

(** X3: a frame with an IPv4 layer and no TCP, UDP or ICMP layer yields a
    record labelled "IP" with the addresses of the IPv4 layer, without port
    fields and with [None] as metadata. *)
Theorem classify_ipv4_plain (p : packet) (file_name : string) (ip : ip_hdr) :
  getitem p cls_IP = Some ip ->
  haslayer p cls_TCP = false ->
  haslayer p cls_UDP = false ->
  haslayer p cls_ICMP = false ->
  (is_Some (fromtimestamp (time p)) -> is_Some (classify file_name p)) /\
  (forall r : pydict, classify file_name p = Some r ->
     r !! "protocol" = Some (PyStr "IP") /\
     r !! "source_ip" = Some (PyStr (src ip)) /\
     r !! "destination_ip" = Some (PyStr (dst ip)) /\
     r !! "source_port" = None /\
     r !! "destination_port" = None /\
     r !! "packet_data" = Some PyNone).
Proof.
  intros Hip Htcp Hudp Hicmp. split.
  - rewrite classify_body. apply body_is_Some.
  - intros r Hr. rewrite classify_body in Hr.
    pose proof (haslayer_getitem_Some _ _ _ Hip) as Hhas.
    unfold extract_body in Hr.
    destruct (fromtimestamp (time p)) as [ts|]; simpl in Hr; [|discriminate].
    rewrite Hhas, Hip in Hr. simpl in Hr.
    rewrite Htcp, Hudp, Hicmp in Hr. injection Hr as <-.
    repeat split; reflexivity.
Qed.

(** X4: a frame with an IPv6 layer and no IPv4 layer yields a record with the
    addresses of the IPv6 layer, labelled "TCPv6" if it has a TCP layer,
    else "UDPv6" if it has a UDP layer, else "IPv6"; the ports are those of
    that transport layer, and the metadata is [None] in all three cases, also
    when the frame has an ICMP layer. *)
Theorem classify_ipv6 (p : packet) (file_name : string) (ip6 : ip_hdr) :
  haslayer p cls_IP = false ->
  getitem p cls_IPv6 = Some ip6 ->
  (is_Some (fromtimestamp (time p)) -> is_Some (classify file_name p)) /\
  (forall r : pydict, classify file_name p = Some r ->
     r !! "source_ip" = Some (PyStr (src ip6)) /\
     r !! "destination_ip" = Some (PyStr (dst ip6)) /\
     r !! "packet_data" = Some PyNone /\
     match getitem p cls_TCP, getitem p cls_UDP with
     | Some tcp, _ =>
         r !! "protocol" = Some (PyStr "TCPv6") /\
         r !! "source_port" = Some (PyInt (tcp_sport tcp)) /\
         r !! "destination_port" = Some (PyInt (tcp_dport tcp))
     | None, Some udp =>
         r !! "protocol" = Some (PyStr "UDPv6") /\
         r !! "source_port" = Some (PyInt (udp_sport udp)) /\
         r !! "destination_port" = Some (PyInt (udp_dport udp))
     | None, None =>
         r !! "protocol" = Some (PyStr "IPv6") /\
         r !! "source_port" = None /\
         r !! "destination_port" = None
     end).
Proof.
  intros Hip Hip6. split.
  - rewrite classify_body. apply body_is_Some.
  - intros r Hr. rewrite classify_body in Hr.
    pose proof (haslayer_getitem_Some _ _ _ Hip6) as Hhas.
    unfold extract_body in Hr.
    destruct (fromtimestamp (time p)) as [ts|]; simpl in Hr; [|discriminate].
    rewrite Hip, Hhas, Hip6 in Hr. simpl in Hr.
    destruct (haslayer p cls_TCP) eqn:Htcp.
    + apply haslayer_getitem in Htcp as [tcp Htcp]. rewrite Htcp in *.
      simpl in Hr. injection Hr as <-. repeat split; reflexivity.
    + assert (getitem p cls_TCP = None) as ->.
      { destruct (getitem p cls_TCP) eqn:E; [|reflexivity].
        apply haslayer_getitem_Some in E. congruence. }
      destruct (haslayer p cls_UDP) eqn:Hudp.
      * apply haslayer_getitem in Hudp as [udp Hudp]. rewrite Hudp in *.
        simpl in Hr. injection Hr as <-. repeat split; reflexivity.
      * assert (getitem p cls_UDP = None) as ->.
        { destruct (getitem p cls_UDP) eqn:E; [|reflexivity].
          apply haslayer_getitem_Some in E. congruence. }
        injection Hr as <-. repeat split; reflexivity.
Qed.

(** X5: the IPv4 layer takes precedence: when a frame has an IPv4 layer, the
    addresses of the record are those of that layer and the label is one of
    "IP", "TCP", "UDP" and "ICMP", whether or not the frame also has an IPv6
    layer. *)
Theorem classify_ipv4_first (p : packet) (file_name : string) (ip : ip_hdr)
    (r : pydict) :
  getitem p cls_IP = Some ip ->
  classify file_name p = Some r ->
  r !! "source_ip" = Some (PyStr (src ip)) /\
  r !! "destination_ip" = Some (PyStr (dst ip)) /\
  exists label, r !! "protocol" = Some (PyStr label)
                /\ label ∈ ["IP"; "TCP"; "UDP"; "ICMP"].
Proof.
  intros Hip Hr. rewrite classify_body in Hr.
  pose proof (haslayer_getitem_Some _ _ _ Hip) as Hhas.
  unfold extract_body in Hr.
  destruct (fromtimestamp (time p)) as [ts|]; simpl in Hr; [|discriminate].
  rewrite Hhas, Hip in Hr. simpl in Hr.
  repeat match type of Hr with
    | context [haslayer ?p ?c] =>
        destruct (haslayer p c) eqn:?; simpl in Hr
    | context [getitem ?p ?c] =>
        destruct (getitem p c) eqn:?; simpl in Hr
    end;
  try discriminate Hr; injection Hr as <-;
  (split; [reflexivity|]); (split; [reflexivity|]);
  eexists; (split; [reflexivity|]); repeat constructor.
Qed.

(** X6: in every record, the port fields are present exactly for the labels
    "TCP", "UDP", "TCPv6" and "UDPv6", the address fields are present exactly
    for the labels other than "Other", and the metadata is [None] exactly for
    the labels "IP", "IPv6", "TCPv6" and "UDPv6". *)
Theorem classify_fields_by_label (p : packet) (file_name : string)
    (r : pydict) :
  classify file_name p = Some r ->
  exists label : string,
    r !! "protocol" = Some (PyStr label) /\
    (is_Some (r !! "source_port")
       <-> label ∈ ["TCP"; "UDP"; "TCPv6"; "UDPv6"]) /\
    (is_Some (r !! "source_ip") <-> label <> "Other") /\
    (r !! "packet_data" = Some PyNone
       <-> label ∈ ["IP"; "IPv6"; "TCPv6"; "UDPv6"]).
Proof.
  rewrite classify_body. intros Hr.
  branch_cases Hr; eexists; (split; [reflexivity|]);
    (split; [|split]);
    match goal with |- ?P <-> ?Q => apply (iff_bool_decide P Q) end;
    reflexivity.
Qed.

(** X7: every record has the five keys [timestamp], [packet_size],
    [file_name], [packet_data] and [protocol]; its timestamp is the converted
    capture time, its file name is the one passed in; and it has no key other
    than these and the four address and port keys. *)
Theorem classify_keys (p : packet) (file_name : string) (r : pydict) :
  classify file_name p = Some r ->
  (exists ts : datetime,
      fromtimestamp (time p) = Some ts /\
      r !! "timestamp" = Some (PyDatetime ts)) /\
  r !! "file_name" = Some (PyStr file_name) /\
  ({["timestamp"; "packet_size"; "file_name"; "packet_data"; "protocol"]}
     : gset string) ⊆ dom r /\
  dom r ⊆ {["timestamp"; "packet_size"; "file_name"; "packet_data";
            "protocol"; "source_ip"; "destination_ip"; "source_port";
            "destination_port"]}.
Proof.
  rewrite classify_body. intros Hr.
  branch_cases Hr; (split; [exists ts; split; reflexivity|]);
    (split; [reflexivity|]);
    split;
    match goal with |- ?P => apply (bool_decide_eq_true_1 P) end;
    vm_compute; reflexivity.
Qed.

End ClassifierBranches.

(** * Further properties of the batch extractor *)

Section BatchProofs.

Context {lib : Library}.

Lemma batch_length (cap : Z) {A : Type} (packets : list A) :
  (length (batch cap packets) <= length packets)%nat /\
  (0 < cap -> Z.of_nat (length (batch cap packets)) <= cap).
Proof.
  assert (Hpos : 0 <= Z.of_nat (length packets)) by apply Nat2Z.is_nonneg.
  unfold batch, slice_to. split.
  - destruct (negb (cap =? 0) && (Z.of_nat (length packets) >? cap));
      [|lia].
    destruct (0 <=? cap); rewrite length_take; lia.
  - intros Hcap. replace (cap =? 0) with false by lia. simpl.
    destruct (Z.of_nat (length packets) >? cap) eqn:E; [|lia].
    replace (0 <=? cap) with true by lia. rewrite length_take. lia.
Qed.

Lemma records_le_cap (cap : Z) (path : string) :
  0 < cap -> Z.of_nat (length (parse_pcap_file cap path).1) <= cap.
Proof.
  intros Hcap. destruct (rdpcap path) as [packets|] eqn:Hrd.
  - rewrite (parse_pcap_file_eq _ _ _ Hrd). simpl.
    pose proof (proj2 (batch_length cap packets) Hcap).
    pose proof (length_omap_le (classify (basename path))
                               (batch cap packets)). lia.
  - unfold parse_pcap_file. rewrite Hrd. simpl. lia.
Qed.

(** X8: the cap bounds the output: with a cap of at least 1, no more records
    than the cap come out of a file, however many frames it holds; and with
    any cap no more records come out than the file has frames. *)
Theorem records_within_cap (cap : Z) (path : string) (packets : list packet) :
  rdpcap path = Some packets ->
  (length (parse_pcap_file cap path).1 <= length packets)%nat /\
  (0 < cap -> Z.of_nat (length (parse_pcap_file cap path).1) <= cap).
Proof.
  intros Hrd. split; [|apply records_le_cap].
  rewrite (parse_pcap_file_eq _ _ _ Hrd). simpl.
  etransitivity; [apply length_omap_le|apply batch_length].
Qed.

(** X9: when the cap is 0, or the file has no more frames than the cap,
    every frame of the file is classified and no limit warning is logged. *)
Theorem no_cap_keeps_all (cap : Z) (path : string) (packets : list packet) :
  rdpcap path = Some packets ->
  cap = 0 \/ Z.of_nat (length packets) <= cap ->
  (parse_pcap_file cap path).1 = omap (classify (basename path)) packets /\
  (parse_pcap_file cap path).2 =
    [InfoParsing path] ++
    flat_map (fun p => (_extract_packet_info p (basename path)).2) packets ++
    [InfoParsed (length (parse_pcap_file cap path).1) path].
Proof.
  intros Hrd Hcap. rewrite (parse_pcap_file_eq _ _ _ Hrd). simpl.
  assert (negb (cap =? 0) && (Z.of_nat (length packets) >? cap) = false)
    as Hoff.
  { destruct Hcap as [->|Hle]; [reflexivity|].
    replace (Z.of_nat (length packets) >? cap) with false by lia.
    apply andb_false_r. }
  unfold batch. rewrite Hoff. split; reflexivity.
Qed.

(** X10: a negative cap drops frames from the end: the frames classified are
    all but the last [-cap] frames of the file (none when the file has no more
    than [-cap] frames), and the limit warning is logged. *)
Theorem negative_cap_drops_tail (cap : Z) (path : string)
    (packets : list packet) :
  rdpcap path = Some packets ->
  cap < 0 ->
  let kept := take (length packets - Z.to_nat (- cap)) packets in
  (parse_pcap_file cap path).1 = omap (classify (basename path)) kept /\
  (parse_pcap_file cap path).2 =
    [InfoParsing path; WarnLimited cap path] ++
    flat_map (fun p => (_extract_packet_info p (basename path)).2) kept ++
    [InfoParsed (length (parse_pcap_file cap path).1) path].
Proof.
  intros Hrd Hcap kept. rewrite (parse_pcap_file_eq _ _ _ Hrd). simpl.
  assert (Hpos : 0 <= Z.of_nat (length packets)) by apply Nat2Z.is_nonneg.
  assert (Hb : batch cap packets = kept).
  { subst kept. unfold batch, slice_to.
    replace (cap =? 0) with false by lia.
    replace (Z.of_nat (length packets) >? cap) with true by lia.
    simpl. destruct (0 <=? cap) eqn:E; [lia|reflexivity]. }
  rewrite Hb.
  replace (cap =? 0) with false by lia.
  replace (Z.of_nat (length packets) >? cap) with true by lia.
  split; reflexivity.
Qed.

Lemma extraction_errors_app (l1 l2 : list log_event) :
  extraction_errors (l1 ++ l2)
  = (extraction_errors l1 + extraction_errors l2)%nat.
Proof.
  unfold extraction_errors. by rewrite List.filter_app, length_app.
Qed.

Lemma records_and_errors (file_name : string) (ps : list packet) :
  (length (omap (classify file_name) ps)
   + extraction_errors
       (flat_map (fun p => (_extract_packet_info p file_name).2) ps))%nat
  = length ps.
Proof.
  induction ps as [|p ps IH]; csimpl; [reflexivity|].
  rewrite extraction_errors_app.
  unfold classify at 1, _extract_packet_info at 1 2.
  destruct (extract_body p file_name); simpl.
  - unfold extraction_errors in *. simpl. lia.
  - unfold extraction_errors in *. simpl. lia.
Qed.

(** X11: every frame handed to the loop is accounted for: the number of
    records plus the number of extraction errors in the log is the number of
    frames of the batch, and the last log entry reports the number of
    records. *)
Theorem every_frame_is_accounted_for (cap : Z) (path : string)
    (packets : list packet) :
  rdpcap path = Some packets ->
  (length (parse_pcap_file cap path).1
   + extraction_errors (parse_pcap_file cap path).2)%nat
  = length (batch cap packets) /\
  last (parse_pcap_file cap path).2
  = Some (InfoParsed (length (parse_pcap_file cap path).1) path).
Proof.
  intros Hrd. rewrite (parse_pcap_file_eq _ _ _ Hrd). simpl. split.
  - rewrite app_comm_cons, !extraction_errors_app.
    rewrite <- (records_and_errors (basename path) (batch cap packets)).
    assert (extraction_errors
              (InfoParsing path ::
               (if negb (cap =? 0) && (Z.of_nat (length packets) >? cap)
                then [WarnLimited cap path] else [])) = 0%nat) as ->.
    { by destruct (negb (cap =? 0) && _). }
    change (extraction_errors [InfoParsed _ _]) with 0%nat. lia.
  - rewrite app_comm_cons, app_assoc. apply last_snoc.
Qed.

(** X12: every record that comes out of a file carries the base name of the
    path of that file as its [file_name], and a label of the fixed set. *)
Theorem records_carry_file_name (cap : Z) (path : string) (r : pydict) :
  r ∈ (parse_pcap_file cap path).1 ->
  r !! "file_name" = Some (PyStr (basename path)) /\
  exists label, r !! "protocol" = Some (PyStr label)
                /\ label ∈ protocol_labels.
Proof.
  intros Hr. destruct (rdpcap path) as [packets|] eqn:Hrd.
  - rewrite (parse_pcap_file_eq _ _ _ Hrd) in Hr. simpl in Hr.
    apply list_elem_of_omap in Hr as (p & _ & Hp).
    rewrite classify_body in Hp. split.
    + by apply (body_file_name p).
    + by apply (body_label p (basename path)).
  - unfold parse_pcap_file in Hr. rewrite Hrd in Hr. simpl in Hr.
    by apply not_elem_of_nil in Hr.
Qed.

End BatchProofs.

(** * Properties of [parse_directory] *)

Lemma endswith_spec (s suffix : string) :
  endswith s suffix = true <-> exists x, s = x +:+ suffix.
Proof.
  induction s as [|c s IH].
  - change (endswith EmptyString suffix)
      with (String.eqb EmptyString suffix || false).
    rewrite orb_false_r, String.eqb_eq. split.
    + intros <-. by exists EmptyString.
    + intros [x Hx]. destruct x; [done|discriminate].
  - change (endswith (String c s) suffix)
      with (String.eqb (String c s) suffix || endswith s suffix).
    rewrite orb_true_iff, String.eqb_eq, IH. split.
    + intros [<-|[x ->]]; [by exists EmptyString|by exists (String c x)].
    + intros [x Hx]. destruct x as [|c' x]; simpl in Hx; [by left|].
      right. exists x. by injection Hx.
Qed.

Lemma lower_app (a b : string) : lower (a +:+ b) = lower a +:+ lower b.
Proof. induction a as [|c a IH]; simpl; [reflexivity|by rewrite IH]. Qed.

Lemma lower_split (f x y : string) :
  lower f = x +:+ y ->
  exists a b, f = a +:+ b /\ lower a = x /\ lower b = y.
Proof.
  revert f. induction x as [|c x IH]; intros f H; simpl in H.
  - by exists EmptyString, f.
  - destruct f as [|d f]; simpl in H; [discriminate|].
    injection H as Hc Hf. destruct (IH f Hf) as (a & b & -> & <- & <-).
    exists (String d a), b. simpl. by rewrite Hc.
Qed.

(** X13: a directory entry is taken as a capture file exactly when it ends,
    in any mix of upper and lower case, with [.pcap] or [.pcapng]: the name
    is some stem followed by an extension whose lower-case form is one of
    the two. *)
Theorem is_pcap_name_spec (f : string) :
  is_pcap_name f = true <->
  exists stem ext : string,
    f = stem +:+ ext /\ (lower ext = ".pcap" \/ lower ext = ".pcapng").
Proof.
  unfold is_pcap_name. rewrite orb_true_iff, !endswith_spec. split.
  - intros [[x Hx]|[x Hx]]; apply lower_split in Hx as (a & b & -> & _ & Hb);
      exists a, b; auto.
  - intros (stem & ext & -> & [H|H]); rewrite lower_app, H; eauto.
Qed.

Section ParseDirectoryProofs.

Context {lib : Library} {fs : Filesystem}.

Lemma foldl_directory_step (cap : Z) (d : string) (files : list string)
    (st : list pydict * list dir_event) :
  foldl (directory_step cap d) st files =
  (st.1 ++ concat (map (fun f => (parse_pcap_file cap (path_join d f)).1)
                       files),
   st.2 ++ concat (map (fun f => map FromFile
                                   (parse_pcap_file cap (path_join d f)).2)
                       files)).
Proof.
  revert st. induction files as [|f files IH]; intros st; simpl.
  - rewrite !app_nil_r. by destruct st.
  - rewrite IH. unfold directory_step.
    destruct (parse_pcap_file cap (path_join d f)) as [pd lg]. simpl.
    by rewrite <- !app_assoc.
Qed.

Lemma omap_from_file (l : list log_event) :
  omap from_file (map FromFile l) = l.
Proof. induction l as [|e l IH]; csimpl; [reflexivity|by rewrite IH]. Qed.

Lemma parse_directory_eq (cap : Z) (d : string) (files : list string) :
  path_exists d = true ->
  listdir d = Some files ->
  exists log : list dir_event,
    parse_directory cap d =
      Some (concat (map (fun f => (parse_pcap_file cap (path_join d f)).1)
                        (List.filter is_pcap_name files)), log) /\
    omap from_file log =
      concat (map (fun f => (parse_pcap_file cap (path_join d f)).2)
                  (List.filter is_pcap_name files)).
Proof.
  intros Hex Hls. unfold parse_directory. rewrite Hex, Hls. simpl.
  destruct (List.filter is_pcap_name files) as [|f fs'] eqn:E.
  - eexists. split; reflexivity.
  - rewrite foldl_directory_step. simpl. eexists. split; [reflexivity|].
    csimpl. rewrite !omap_app, omap_from_file. csimpl.
    rewrite app_nil_r. f_equal.
    clear E. induction fs' as [|g fs' IH]; csimpl; [reflexivity|].
    by rewrite omap_app, omap_from_file, IH.
Qed.

(** X14: for a directory that exists and can be listed, the records are the
    records of its capture files, one file after the other in the order of
    the listing and each file in its frame order; only entries with a
    capture-file name are parsed: the log holds the messages of exactly
    these files. *)
Theorem parse_directory_concat (cap : Z) (d : string) (files : list string) :
  path_exists d = true ->
  listdir d = Some files ->
  exists (all_packets : list pydict) (log : list dir_event),
    parse_directory cap d = Some (all_packets, log) /\
    all_packets =
      concat (map (fun f => (parse_pcap_file cap (path_join d f)).1)
                  (List.filter is_pcap_name files)) /\
    omap from_file log =
      concat (map (fun f => (parse_pcap_file cap (path_join d f)).2)
                  (List.filter is_pcap_name files)).
Proof.
  intros Hex Hls.
  destruct (parse_directory_eq cap d files Hex Hls) as (log & H1 & H2).
  eauto.
Qed.

Lemma concat_map_filter_nil {A B : Type} (g : A -> list B) (q : A -> bool)
    (l : list A) :
  (forall x, q x = false -> g x = []) ->
  concat (map g (List.filter q l)) = concat (map g l).
Proof.
  intros Hq. induction l as [|x l IH]; simpl; [reflexivity|].
  destruct (q x) eqn:E; simpl; rewrite IH; [reflexivity|].
  by rewrite (Hq x E).
Qed.

(** X15: a capture file that cannot be read contributes no record and does
    not stop the directory: the records are those of the capture files that
    can be read, in the order of the listing. *)
Theorem unreadable_files_are_skipped (cap : Z) (d : string)
    (files : list string) :
  path_exists d = true ->
  listdir d = Some files ->
  exists log : list dir_event,
    parse_directory cap d =
    Some (concat
            (map (fun f => (parse_pcap_file cap (path_join d f)).1)
                 (List.filter
                    (fun f => bool_decide (is_Some (rdpcap (path_join d f))))
                    (List.filter is_pcap_name files))),
          log).
Proof.
  intros Hex Hls.
  destruct (parse_directory_eq cap d files Hex Hls) as (log & H1 & _).
  exists log. rewrite H1. do 2 f_equal. symmetry.
  apply concat_map_filter_nil. intros f Hf.
  apply bool_decide_eq_false in Hf. unfold parse_pcap_file.
  destruct (rdpcap (path_join d f)); [|reflexivity].
  exfalso. apply Hf. eauto.
Qed.

(** X16: with a cap of at least 1, a directory yields no more records than
    the cap times the number of its capture files. *)
Theorem directory_within_cap (cap : Z) (d : string) (files : list string)
    (all_packets : list pydict) (log : list dir_event) :
  0 < cap ->
  listdir d = Some files ->
  parse_directory cap d = Some (all_packets, log) ->
  Z.of_nat (length all_packets)
  <= cap * Z.of_nat (length (List.filter is_pcap_name files)).
Proof.
  intros Hcap Hls Hpd. destruct (path_exists d) eqn:Hex.
  - destruct (parse_directory_eq cap d files Hex Hls) as (log' & H1 & _).
    rewrite H1 in Hpd. injection Hpd as <- _. clear H1.
    induction (List.filter is_pcap_name files) as [|f fs' IH]; simpl; [lia|].
    rewrite length_app, Nat2Z.inj_add, Nat2Z.inj_succ, Z.mul_succ_r.
    pose proof (records_le_cap cap (path_join d f) Hcap). lia.
  - unfold parse_directory in Hpd. rewrite Hex in Hpd. simpl in Hpd.
    injection Hpd as <- _. simpl. lia.
Qed.

End ParseDirectoryProofs.

(** * Further properties of [_apply_filters] *)

Lemma comprehension_filter {A : Type} (cond : A -> option bool)
    (l l' : list A) :
  comprehension cond l = Some l' ->
  l' = List.filter (fun x => bool_decide (cond x = Some true)) l.
Proof.
  revert l'. induction l as [|x l IH]; simpl; intros l' H.
  - by injection H as <-.
  - destruct (cond x) as [b|] eqn:E; simpl in H; [|discriminate].
    destruct (comprehension cond l) as [rest|]; simpl in H; [|discriminate].
    injection H as <-. rewrite <- (IH rest eq_refl).
    destruct b.
    + by rewrite bool_decide_eq_true_2.
    + by rewrite bool_decide_eq_false_2.
Qed.

Lemma comprehension_None {A : Type} (cond : A -> option bool) (l : list A)
    (x : A) :
  x ∈ l -> cond x = None -> comprehension cond l = None.
Proof.
  intros Hin Hx. induction Hin as [x l|x y l _ IH]; simpl.
  - by rewrite Hx.
  - destruct (cond y); simpl; [|reflexivity]. by rewrite IH.
Qed.

Lemma filter_filter_andb {A : Type} (f g : A -> bool) (l : list A) :
  List.filter f (List.filter g l) = List.filter (fun x => g x && f x) l.
Proof.
  induction l as [|x l IH]; simpl; [reflexivity|].
  destruct (g x); simpl; [|exact IH].
  destruct (f x); by rewrite IH.
Qed.

Lemma filter_all_true {A : Type} (l : list A) :
  List.filter (fun _ => true) l = l.
Proof. induction l as [|x l IH]; simpl; [reflexivity|by rewrite IH]. Qed.

Lemma filter_sublist_impl {A : Type} (f g : A -> bool) (l : list A) :
  (forall x, f x = true -> g x = true) ->
  List.filter f l `sublist_of` List.filter g l.
Proof.
  intros Himp. induction l as [|x l IH]; simpl; [constructor|].
  destruct (f x) eqn:Ef.
  - rewrite (Himp x Ef). by constructor.
  - destruct (g x); [by constructor|exact IH].
Qed.

Lemma run_filter (c : criterion) (l l' : list pydict) :
  run c l = Some l' -> l' = List.filter (passes c) l.
Proof.
  destruct c; simpl; intros H.
  - injection H as <-. by rewrite filter_all_true.
  - discriminate.
  - by apply comprehension_filter.
Qed.

Lemma run_all_filter (cs : list criterion) (l l' : list pydict) :
  run_all cs l = Some l' ->
  l' = List.filter (fun p => forallb (fun c => passes c p) cs) l.
Proof.
  revert l. induction cs as [|c cs IH]; simpl; intros l H.
  - injection H as <-. by rewrite filter_all_true.
  - destruct (run c l) as [l1|] eqn:E; simpl in H; [|discriminate].
    apply IH in H. apply run_filter in E. subst l1.
    by rewrite filter_filter_andb in H.
Qed.

Lemma run_all_Raises (cs : list criterion) (l : list pydict) :
  Raises ∈ cs -> run_all cs l = None.
Proof.
  revert l. induction cs as [|c cs IH]; intros l Hin.
  - by apply not_elem_of_nil in Hin.
  - apply elem_of_cons in Hin as [ <- | Hin ]; simpl; [reflexivity|].
    destruct (run c l); simpl; [by apply IH|reflexivity].
Qed.

Section FilterProofs.

Context {lib : Library}.

Lemma apply_filters_accepts (R R' : list pydict) (S : pydict) :
  _apply_filters R S = Some R' -> Forall (accepts R') (criteria S).
Proof. rewrite apply_filters_run_all. apply run_all_accepts. Qed.

(** X17: the records returned are exactly the records of the input that
    pass every criterion, in the order of the input: nothing that matches is
    dropped and nothing else is kept. *)
Theorem apply_filters_exact (R R' : list pydict) (S : pydict) :
  _apply_filters R S = Some R' -> R' = List.filter (matches S) R.
Proof. rewrite apply_filters_run_all. apply run_all_filter. Qed.

(** X18: every record returned satisfies each criterion that is set: its
    protocol equals the protocol asked for; its source or its destination
    address equals the address asked for; its source or its destination port
    equals the port asked for; its size is at least the minimum and at most
    the maximum; and its timestamp parses and lies within the time bounds. *)
Theorem apply_filters_sound (R R' : list pydict) (S : pydict) (p : pydict) :
  _apply_filters R S = Some R' ->
  p ∈ R' ->
  (forall v, active S "protocol" = Some v -> get p "protocol" = v) /\
  (forall v, active S "ip_address" = Some v ->
     get p "source_ip" = v \/ get p "destination_ip" = v) /\
  (forall v, active S "port" = Some v ->
     get p "source_port" = v \/ get p "destination_port" = v) /\
  (forall v, active S "min_size" = Some v ->
     py_ge (get_d p "packet_size" (PyInt 0)) v = Some true) /\
  (forall v, active S "max_size" = Some v ->
     py_le (get_d p "packet_size" (PyInt 0)) v = Some true) /\
  (forall v, active S "start_time" = Some v ->
     exists t bound,
       py_fromisoformat (get_d p "timestamp" (PyStr EmptyString)) = Some t /\
       py_fromisoformat v = Some bound /\
       py_ge (PyDatetime t) (PyDatetime bound) = Some true) /\
  (forall v, active S "end_time" = Some v ->
     exists t bound,
       py_fromisoformat (get_d p "timestamp" (PyStr EmptyString)) = Some t /\
       py_fromisoformat v = Some bound /\
       py_le (PyDatetime t) (PyDatetime bound) = Some true).
Proof.
  intros HR Hp. apply apply_filters_accepts in HR.
  unfold criteria in HR.
  repeat match goal with
    | H : Forall _ (_ :: _) |- _ =>
        let H1 := fresh "Hc" in
        apply Forall_cons in H as [H1 H]
    end.
  assert (Hin : forall cond : pydict -> option bool,
             Forall (fun q => cond q = Some true) R' -> cond p = Some true).
  { intros cond HF. by apply (proj1 (Forall_forall _ _) HF). }
  repeat split; intros v Hv.
  - rewrite Hv in Hc. apply Hin in Hc. injection Hc as Hc.
    by apply bool_decide_eq_true in Hc.
  - rewrite Hv in Hc0. apply Hin in Hc0. injection Hc0 as Hc0.
    apply orb_true_iff in Hc0 as [H|H];
      apply bool_decide_eq_true in H; auto.
  - rewrite Hv in Hc1. apply Hin in Hc1. injection Hc1 as Hc1.
    apply orb_true_iff in Hc1 as [H|H];
      apply bool_decide_eq_true in H; auto.
  - rewrite Hv in Hc2. by apply Hin in Hc2.
  - rewrite Hv in Hc3. by apply Hin in Hc3.
  - rewrite Hv in Hc4.
    destruct (py_fromisoformat v) as [bound|]; [|contradiction].
    apply Hin in Hc4.
    destruct (py_fromisoformat (get_d p "timestamp" (PyStr EmptyString)))
      as [t|]; [|discriminate]. eauto.
  - rewrite Hv in Hc5.
    destruct (py_fromisoformat v) as [bound|]; [|contradiction].
    apply Hin in Hc5.
    destruct (py_fromisoformat (get_d p "timestamp" (PyStr EmptyString)))
      as [t|]; [|discriminate]. eauto.
Qed.

Lemma active_truthy (S : pydict) (k : string) (v : pyval) :
  active S k = Some v -> truthy v = true.
Proof.
  unfold active. destruct (S !! k) as [w|]; [|discriminate].
  destruct (truthy w) eqn:E; [|discriminate]. by intros [= <-].
Qed.

(** X19: a record without ports never passes a port criterion: when a port
    is asked for, no returned record has [None] (or no entry) as both its
    source and its destination port. *)
Theorem port_filter_drops_portless (R R' : list pydict) (S : pydict)
    (p : pydict) (port : pyval) :
  _apply_filters R S = Some R' ->
  active S "port" = Some port ->
  get p "source_port" = PyNone ->
  get p "destination_port" = PyNone ->
  p ∉ R'.
Proof.
  intros HR Hport Hs Hd Hp. apply apply_filters_accepts in HR.
  unfold criteria in HR.
  do 2 apply Forall_cons in HR as [_ HR]. apply Forall_cons in HR as [Hc _].
  rewrite Hport in Hc. simpl in Hc.
  apply (proj1 (Forall_forall _ _) Hc) in Hp. injection Hp as Hp.
  apply active_truthy in Hport. rewrite Hs, Hd in Hp.
  apply orb_true_iff in Hp as [H|H]; apply bool_decide_eq_true in H;
    subst port; discriminate.
Qed.

(** X20: a time bound that is set but does not parse makes the call raise,
    whatever the records are, also when there are none. *)
Theorem unparsable_time_bound_raises (R : list pydict) (S : pydict)
    (key : string) (v : pyval) :
  key = "start_time" \/ key = "end_time" ->
  active S key = Some v ->
  py_fromisoformat v = None ->
  _apply_filters R S = None.
Proof.
  intros Hkey Hv Hparse. rewrite apply_filters_run_all.
  apply run_all_Raises. unfold criteria.
  destruct Hkey as [ -> | -> ]; rewrite Hv, Hparse.
  - do 5 right. left.
  - do 6 right. left.
Qed.

(** X21: with a time criterion as the only criterion set, one record whose
    timestamp is missing or does not parse makes the call raise: the record
    is not silently dropped. *)
Theorem time_filter_needs_timestamps (R : list pydict) (S : pydict)
    (p : pydict) :
  active S "protocol" = None ->
  active S "ip_address" = None ->
  active S "port" = None ->
  active S "min_size" = None ->
  active S "max_size" = None ->
  is_Some (active S "start_time") \/ is_Some (active S "end_time") ->
  p ∈ R ->
  py_fromisoformat (get_d p "timestamp" (PyStr EmptyString)) = None ->
  _apply_filters R S = None.
Proof.
  intros H1 H2 H3 H4 H5 Htime Hp Hts.
  unfold _apply_filters. rewrite H1, H2, H3, H4, H5. simpl.
  destruct (active S "start_time") as [v|] eqn:Hst.
  - destruct (py_fromisoformat v) as [bound|]; simpl; [|reflexivity].
    rewrite (comprehension_None _ R p Hp); [reflexivity|].
    by rewrite Hts.
  - simpl. destruct Htime as [[? ?]|[w Hw]]; [discriminate|].
    rewrite Hw. destruct (py_fromisoformat w) as [bound|]; simpl;
      [|reflexivity].
    rewrite (comprehension_None _ R p Hp); [reflexivity|].
    by rewrite Hts.
Qed.

Lemma active_insert_new (S : pydict) (k k' : string) (v : pyval) :
  S !! k = None ->
  active (<[k := v]> S) k' = active S k' \/ active S k' = None.
Proof.
  intros Hk. unfold active. destruct (decide (k = k')) as [ <- | Hne ].
  - right. by rewrite Hk.
  - left. by rewrite lookup_insert_ne.
Qed.

Lemma matches_insert_new (S : pydict) (k : string) (v : pyval) (p : pydict) :
  S !! k = None -> matches (<[k := v]> S) p = true -> matches S p = true.
Proof.
  intros Hk. unfold matches, criteria. simpl.
  rewrite !andb_true_iff. intros H.
  repeat match goal with
    | H : _ /\ _ |- _ => destruct H
    end.
  repeat split; try reflexivity;
    match goal with
    | |- passes (match active S ?key with _ => _ end) p = true =>
        destruct (active_insert_new S k key v Hk) as [E|E];
          [rewrite <- E; assumption|rewrite E; reflexivity]
    end.
Qed.

(** X22: a criterion added under a key that was not there can only remove
    records: when both calls return, the result with the added criterion is
    a subsequence of the result without it. *)
Theorem added_criterion_narrows (R R1 R2 : list pydict) (S : pydict)
    (k : string) (v : pyval) :
  S !! k = None ->
  _apply_filters R S = Some R1 ->
  _apply_filters R (<[k := v]> S) = Some R2 ->
  R2 `sublist_of` R1.
Proof.
  intros Hk H1 H2.
  rewrite apply_filters_run_all in H1, H2.
  apply run_all_filter in H1, H2. subst R1 R2.
  apply filter_sublist_impl. intros p. by apply matches_insert_new.
Qed.

End FilterProofs.

(** * Further properties of [_calculate_statistics] *)

Lemma counter_get_bump (c : counter) (k k' : pyval) :
  counter_get (bump k c) k'
  = if decide (k = k') then S (counter_get c k') else counter_get c k'.
Proof.
  induction c as [|[k0 n] c IH]; csimpl.
  - destruct (decide (k = k')); reflexivity.
  - destruct (decide (k0 = k)) as [ -> | Hne ]; csimpl.
    + destruct (decide (k = k')); reflexivity.
    + rewrite IH. destruct (decide (k0 = k')) as [ -> | Hne' ];
        [|reflexivity].
      destruct (decide (k = k')); [congruence|reflexivity].
Qed.

Lemma bump_keys (c : counter) (k k' : pyval) :
  k' ∈ (bump k c).*1 <-> k' = k \/ k' ∈ c.*1.
Proof.
  induction c as [|[k0 n] c IH]; csimpl.
  - rewrite list_elem_of_singleton. split; [auto|].
    intros [H|H]; [exact H|by apply not_elem_of_nil in H].
  - destruct (decide (k0 = k)) as [ -> | Hne ]; csimpl.
    + rewrite elem_of_cons. tauto.
    + rewrite !elem_of_cons, IH. tauto.
Qed.

Lemma bump_NoDup (c : counter) (k : pyval) :
  NoDup c.*1 -> NoDup (bump k c).*1.
Proof.
  induction c as [|[k0 n] c IH]; csimpl; intros Hnd.
  - apply NoDup_singleton.
  - apply NoDup_cons in Hnd as [Hnotin Hnd].
    destruct (decide (k0 = k)) as [ -> | Hne ]; csimpl.
    + by apply NoDup_cons.
    + apply NoDup_cons. split; [|by apply IH].
      rewrite bump_keys. intros [H|H]; [congruence|contradiction].
Qed.

Lemma bump_sum (c : counter) (k : pyval) :
  sum_list (bump k c).*2 = S (sum_list c.*2).
Proof.
  induction c as [|[k0 n] c IH]; csimpl; [reflexivity|].
  destruct (decide (k0 = k)); csimpl; [reflexivity|]. rewrite IH. lia.
Qed.

(** What a loop of [bump] over the values [key p] builds. *)
Lemma tally_spec (key : pydict -> pyval) (R : list pydict) (c0 : counter) :
  let c := foldl (fun c p => bump (key p) c) c0 R in
  (NoDup c0.*1 -> NoDup c.*1) /\
  (forall k, counter_get c k
             = (counter_get c0 k
                + length (List.filter (fun p => bool_decide (key p = k))
                                      R))%nat) /\
  sum_list c.*2 = (sum_list c0.*2 + length R)%nat.
Proof.
  revert c0. induction R as [|p R IH]; intros c0; simpl.
  - split; [auto|]. split; [intros; lia|lia].
  - destruct (IH (bump (key p) c0)) as (Hnd & Hget & Hsum).
    split; [|split].
    + intros H. by apply Hnd, bump_NoDup.
    + intros k. rewrite Hget, counter_get_bump.
      destruct (decide (key p = k)) as [E|E].
      * rewrite bool_decide_eq_true_2 by exact E. simpl. lia.
      * by rewrite bool_decide_eq_false_2 by exact E.
    + rewrite Hsum, bump_sum. lia.
Qed.


(** The statistics of a non-empty sequence of records with integer sizes,
    in closed form. *)
Lemma calculate_statistics_eq (R : list pydict) (sizes : list Z) :
  R <> [] ->
  map size_of R = map PyInt sizes ->
  exists lo hi : Z,
    lo ∈ sizes /\ (forall x, x ∈ sizes -> lo <= x) /\
    hi ∈ sizes /\ (forall x, x ∈ sizes -> x <= hi) /\
    _calculate_statistics R =
    Some (list_to_map
      [("total_packets", StInt (length R));
       ("protocol_distribution",
        StCounts (foldl (fun c p => bump (protocol_of p) c) [] R));
       ("top_source_ips", StCounts (top10 (count_key "source_ip" R)));
       ("top_destination_ips",
        StCounts (top10 (count_key "destination_ip" R)));
       ("top_source_ports", StCounts (top10 (count_key "source_port" R)));
       ("top_destination_ports",
        StCounts (top10 (count_key "destination_port" R)));
       ("packet_size_stats",
        StSizes {| stat_min := PyInt lo; stat_max := PyInt hi;
                   stat_average :=
                     Qdiv (inject_Z (foldr Z.add 0 sizes))
                          (inject_Z (Z.of_nat (length R)));
                   stat_total_bytes := foldr Z.add 0 sizes |})]).
Proof.
  intros Hne Hmap.
  assert (Hlen : length R = length sizes).
  { apply (f_equal length) in Hmap. by rewrite !length_map in Hmap. }
  destruct R as [|p R]; [contradiction|].
  destruct sizes as [|z zs]; [discriminate|].
  destruct (min_from_ints zs z) as (lo & Hlo & Hlo_in & Hlo_le).
  destruct (max_from_ints zs z) as (hi & Hhi & Hhi_in & Hhi_le).
  exists lo, hi. repeat (split; [assumption|]).
  unfold _calculate_statistics. cbv zeta.
  change (map (fun packet => get_d packet "packet_size" (PyInt 0)) (p :: R))
    with (map size_of (p :: R)).
  rewrite Hmap.
  change (map PyInt (z :: zs)) with (PyInt z :: map PyInt zs).
  unfold py_min, py_max, py_sum. rewrite Hlo, Hhi.
  change (PyInt z :: map PyInt zs) with (map PyInt (z :: zs)).
  rewrite !py_sum_ints. cbn [mbind option_bind].
  rewrite length_map, <- Hlen, Z.add_0_l. reflexivity.
Qed.

Lemma sizes_of_int_sized (R : list pydict) :
  Forall int_sized R -> exists sizes, map size_of R = map PyInt sizes.
Proof.
  induction 1 as [|p R [n Hn] _ [sizes IH]].
  - by exists [].
  - exists (n :: sizes). simpl. unfold size_of at 1. by rewrite Hn, IH.
Qed.

(** X23: for a non-empty sequence of records with integer sizes, the
    protocol distribution has one entry for each protocol that occurs, the
    count of a protocol is the number of records with that protocol (a
    record without a protocol entry counts under "Unknown"), and the counts
    add up to the number of records. *)
Theorem protocol_distribution_counts (R : list pydict) :
  R <> [] ->
  Forall int_sized R ->
  exists (report : gmap string statval) (c : counter),
    _calculate_statistics R = Some report /\
    report !! "protocol_distribution" = Some (StCounts c) /\
    NoDup c.*1 /\
    (forall k : pyval,
        counter_get c k
        = length (List.filter (fun p => bool_decide (protocol_of p = k)) R)) /\
    (forall k : pyval, k ∈ c.*1 <-> exists p, p ∈ R /\ protocol_of p = k) /\
    sum_list c.*2 = length R.
Proof.
  intros Hne Hint. destruct (sizes_of_int_sized R Hint) as [sizes Hmap].
  destruct (calculate_statistics_eq R sizes Hne Hmap)
    as (lo & hi & _ & _ & _ & _ & Hrep).
  destruct (tally_spec protocol_of R []) as (Hnd & Hget & Hsum).
  eexists _, _. split; [exact Hrep|]. split; [reflexivity|].
  split; [apply Hnd; constructor|]. split; [exact Hget|].
  split; [|exact Hsum].
  intros k. clear. 
  assert (forall c0, k ∈ (foldl (fun c p => bump (protocol_of p) c) c0 R).*1
                     <-> k ∈ c0.*1 \/ exists p, p ∈ R /\ protocol_of p = k)
    as Hgen.
  { induction R as [|q R IH]; intros c0; simpl.
    - split; [auto|]. intros [H|(p & Hp & _)]; [exact H|].
      by apply not_elem_of_nil in Hp.
    - rewrite IH, bump_keys. split.
      + intros [[ -> |H]|(p & Hp & E)]; [right|by left|right].
        * exists q. split; [left|reflexivity].
        * exists p. split; [by right|exact E].
      + intros [H|(p & Hp & E)]; [by left; right|].
        apply elem_of_cons in Hp as [ -> |Hp]; [left; left; by symmetry|].
        right. eauto. }
  rewrite Hgen. simpl. split.
  - intros [H|H]; [by apply not_elem_of_nil in H|exact H].
  - auto.
Qed.

Lemma count_key_tally (k : string) (R : list pydict) (c0 : counter) :
  foldl (fun c packet =>
           if truthy (get packet k) then bump (get packet k) c else c)
        c0 R
  = foldl (fun c p => bump (get p k) c) c0
          (List.filter (fun p => truthy (get p k)) R).
Proof.
  revert c0. induction R as [|p R IH]; intros c0; simpl; [reflexivity|].
  destruct (truthy (get p k)); simpl; apply IH.
Qed.

Lemma tally_keys (key : pydict -> pyval) (R : list pydict) (k : pyval) :
  k ∈ (foldl (fun c p => bump (key p) c) [] R).*1 ->
  exists p, p ∈ R /\ key p = k.
Proof.
  assert (forall c0, k ∈ (foldl (fun c p => bump (key p) c) c0 R).*1 ->
                     k ∈ c0.*1 \/ exists p, p ∈ R /\ key p = k) as Hgen.
  { induction R as [|q R IH]; intros c0; simpl; [auto|].
    intros H. apply IH in H as [H|(p & Hp & E)].
    - apply bump_keys in H as [ -> |H]; [right|by left].
      exists q. split; [left|reflexivity].
    - right. exists p. split; [by right|exact E]. }
  intros H. apply Hgen in H as [H|H]; [|exact H].
  by apply not_elem_of_nil in H.
Qed.

Lemma insert_desc_perm (x : pyval * nat) (l : counter) :
  insert_desc x l ≡ₚ x :: l.
Proof.
  induction l as [|y l IH]; simpl; [reflexivity|].
  destruct (x.2 <? y.2)%nat; [|reflexivity].
  rewrite IH. apply Permutation_swap.
Qed.

Lemma sorted_desc_perm (c : counter) : sorted_desc c ≡ₚ c.
Proof.
  induction c as [|x c IH]; simpl; [reflexivity|].
  unfold sorted_desc in *. simpl. by rewrite insert_desc_perm, IH.
Qed.

Lemma insert_desc_sorted (x : pyval * nat) (l : counter) :
  StronglySorted (fun a b => (b.2 <= a.2)%nat) l ->
  StronglySorted (fun a b => (b.2 <= a.2)%nat) (insert_desc x l).
Proof.
  induction 1 as [|y l Hs IH Hy]; simpl.
  - repeat constructor.
  - destruct (x.2 <? y.2)%nat eqn:E.
    + constructor; [exact IH|].
      rewrite insert_desc_perm. constructor; [|exact Hy].
      apply Nat.ltb_lt in E. lia.
    + apply Nat.ltb_ge in E. constructor; [by constructor|].
      constructor; [exact E|].
      eapply Forall_impl; [exact Hy|]. simpl. intros; lia.
Qed.

Lemma sorted_desc_sorted (c : counter) :
  StronglySorted (fun a b => (b.2 <= a.2)%nat) (sorted_desc c).
Proof.
  induction c as [|x c IH]; [constructor|].
  by apply insert_desc_sorted.
Qed.

Lemma StronglySorted_take_drop {A : Type} (Rel : A -> A -> Prop) (l : list A)
    (n : nat) :
  StronglySorted Rel l ->
  StronglySorted Rel (take n l) /\
  (forall x y, x ∈ take n l -> y ∈ drop n l -> Rel x y).
Proof.
  intros Hs. revert n. induction Hs as [|a l Hs IH Ha]; intros n.
  - rewrite take_nil. split; [constructor|].
    intros x y Hx. by apply not_elem_of_nil in Hx.
  - destruct n as [|n]; simpl.
    + split; [constructor|]. intros x y Hx. by apply not_elem_of_nil in Hx.
    + destruct (IH n) as [Ht Hd]. split.
      * constructor; [exact Ht|].
        apply Forall_forall. intros x Hx.
        apply (proj1 (Forall_forall _ _) Ha).
        eapply elem_of_sublist; [exact Hx|apply sublist_take].
      * intros x y Hx Hy. apply elem_of_cons in Hx as [ -> |Hx].
        -- apply (proj1 (Forall_forall _ _) Ha).
           eapply elem_of_sublist; [exact Hy|apply sublist_drop].
        -- by apply Hd.
Qed.

(** X24: the top-10 selection keeps at most ten entries of the frequency
    dictionary, in order of non-increasing count; the entries it leaves out
    have counts no greater than any count it keeps; and a dictionary of at
    most ten entries is kept whole. *)
Theorem top10_selects_largest (c : counter) :
  (length (top10 c) <= 10)%nat /\
  StronglySorted (fun a b => (b.2 <= a.2)%nat) (top10 c) /\
  (exists rest : counter,
      top10 c ++ rest ≡ₚ c /\
      forall x y, x ∈ top10 c -> y ∈ rest -> (y.2 <= x.2)%nat) /\
  ((length c <= 10)%nat -> top10 c ≡ₚ c).
Proof.
  unfold top10.
  destruct (StronglySorted_take_drop _ _ 10 (sorted_desc_sorted c))
    as [Ht Hd].
  split; [rewrite length_take; lia|]. split; [exact Ht|]. split.
  - exists (drop 10 (sorted_desc c)). split; [|exact Hd].
    rewrite take_drop. apply sorted_desc_perm.
  - intros Hlen. rewrite take_ge; [apply sorted_desc_perm|].
    by rewrite (Permutation_length (sorted_desc_perm c)).
Qed.

Lemma filter_insert_desc (n : nat) (x : pyval * nat) (l : counter) :
  StronglySorted (fun a b => (b.2 <= a.2)%nat) l ->
  List.filter (fun e => (e.2 =? n)%nat) (insert_desc x l)
  = List.filter (fun e => (e.2 =? n)%nat) (x :: l).
Proof.
  induction 1 as [|y l Hs IH Hy]; [reflexivity|].
  cbn [insert_desc]. destruct (x.2 <? y.2)%nat eqn:E; [|reflexivity].
  apply Nat.ltb_lt in E.
  cbn [List.filter] in *. rewrite IH.
  destruct (x.2 =? n)%nat eqn:Ex; [|reflexivity].
  apply Nat.eqb_eq in Ex.
  replace (y.2 =? n)%nat with false; [reflexivity|].
  symmetry. apply Nat.eqb_neq. lia.
Qed.

Lemma filter_take_prefix {A : Type} (f : A -> bool) (l : list A) (n : nat) :
  List.filter f (take n l) `prefix_of` List.filter f l.
Proof.
  revert n. induction l as [|x l IH]; intros n.
  - by rewrite take_nil.
  - destruct n as [|n]; simpl; [apply prefix_nil|].
    destruct (f x); [apply prefix_cons|]; apply IH.
Qed.

(** X25: ties keep first-seen order: among the entries with one and the same
    count, the top-10 selection lists them in the order in which the
    frequency dictionary has them, starting from the first. *)
Theorem top10_ties_keep_order (c : counter) (n : nat) :
  List.filter (fun e => (e.2 =? n)%nat) (top10 c)
  `prefix_of` List.filter (fun e => (e.2 =? n)%nat) c.
Proof.
  assert (List.filter (fun e => (e.2 =? n)%nat) (sorted_desc c)
          = List.filter (fun e => (e.2 =? n)%nat) c) as <-.
  { induction c as [|x c IH]; [reflexivity|].
    change (sorted_desc (x :: c)) with (insert_desc x (sorted_desc c)).
    rewrite filter_insert_desc by apply sorted_desc_sorted.
    cbn [List.filter]. by rewrite IH. }
  apply filter_take_prefix.
Qed.

(** X26: an endpoint value that is falsy is never counted: in the four
    top-10 tables of a report no key is [None], the integer 0 or the empty
    string, and every key listed occurs in some record under the field of
    the table. *)
Theorem top_tables_skip_falsy (R : list pydict) (field : string)
    (e : pyval * nat) :
  e ∈ top10 (count_key field R) ->
  truthy e.1 = true /\ exists p, p ∈ R /\ get p field = e.1.
Proof.
  intros He.
  assert (e.1 ∈ (count_key field R).*1) as Hk.
  { apply list_elem_of_fmap. exists e. split; [reflexivity|].
    rewrite <- (sorted_desc_perm (count_key field R)).
    eapply elem_of_sublist; [exact He|apply sublist_take]. }
  unfold count_key in Hk. rewrite count_key_tally in Hk.
  apply tally_keys in Hk as (p & Hp & E).
  apply list_elem_of_In, List.filter_In in Hp as [Hp Ht].
  rewrite <- E. split; [exact Ht|].
  exists p. split; [by apply list_elem_of_In|reflexivity].
Qed.




Lemma sum_Permutation (l l' : list Z) :
  l ≡ₚ l' -> foldr Z.add 0 l = foldr Z.add 0 l'.
Proof. induction 1; simpl; lia. Qed.

Lemma length_filter_Permutation {A : Type} (f : A -> bool) (l l' : list A) :
  l ≡ₚ l' -> length (List.filter f l) = length (List.filter f l').
Proof.
  induction 1 as [|x l l' _ IH|x y l|l l' l'' _ IH1 _ IH2]; simpl.
  - reflexivity.
  - destruct (f x); simpl; by rewrite IH.
  - destruct (f x), (f y); reflexivity.
  - by rewrite IH1.
Qed.

Lemma map_PyInt_inj (l l' : list Z) : map PyInt l = map PyInt l' -> l = l'.
Proof.
  revert l'. induction l as [|z l IH]; intros [|z' l'] H;
    try discriminate; [reflexivity|].
  simpl in H. injection H as -> H. by rewrite (IH l' H).
Qed.

(** X29: the order of the records does not matter to the numbers of the
    report: two non-empty sequences of records with integer sizes that are
    permutations of each other give the same total, the same size
    statistics, and the same count for every protocol. *)
Theorem statistics_ignore_order (R R' : list pydict) :
  R ≡ₚ R' ->
  R <> [] ->
  Forall int_sized R ->
  exists (report report' : gmap string statval) (c c' : counter),
    _calculate_statistics R = Some report /\
    _calculate_statistics R' = Some report' /\
    report !! "total_packets" = report' !! "total_packets" /\
    report !! "packet_size_stats" = report' !! "packet_size_stats" /\
    report !! "protocol_distribution" = Some (StCounts c) /\
    report' !! "protocol_distribution" = Some (StCounts c') /\
    forall k : pyval, counter_get c k = counter_get c' k.
Proof.
  intros Hperm Hne Hint.
  assert (Hne' : R' <> []).
  { intros ->. apply Permutation_nil_r in Hperm. contradiction. }
  assert (Hint' : Forall int_sized R') by (by rewrite <- Hperm).
  destruct (sizes_of_int_sized R Hint) as [sizes Hmap].
  destruct (sizes_of_int_sized R' Hint') as [sizes' Hmap'].
  assert (Hsizes : sizes ≡ₚ sizes').
  { assert (map PyInt sizes ≡ₚ map PyInt sizes') as HP.
    { rewrite <- Hmap, <- Hmap'. by apply Permutation_map. }
    apply Permutation_map_inv in HP as (l3 & Heq & HP).
    apply map_PyInt_inj in Heq. by subst l3. }
  destruct (calculate_statistics_eq R sizes Hne Hmap)
    as (lo & hi & Hlo_in & Hlo & Hhi_in & Hhi & Hrep).
  destruct (calculate_statistics_eq R' sizes' Hne' Hmap')
    as (lo' & hi' & Hlo_in' & Hlo' & Hhi_in' & Hhi' & Hrep').
  assert (lo = lo') as <-.
  { apply Z.le_antisymm; [apply Hlo|apply Hlo'].
    - by rewrite Hsizes.
    - by rewrite <- Hsizes. }
  assert (hi = hi') as <-.
  { apply Z.le_antisymm; [apply Hhi'|apply Hhi].
    - by rewrite <- Hsizes.
    - by rewrite Hsizes. }
  eexists _, _, _, _. split; [exact Hrep|]. split; [exact Hrep'|].
  split; [|split; [|split; [reflexivity|split; [reflexivity|]]]].
  - change (Some (StInt (length R)) = Some (StInt (length R'))).
    by rewrite (Permutation_length Hperm).
  - match goal with
    | |- ?m !! _ = ?m' !! _ =>
        change (m !! "packet_size_stats")
          with (Some (StSizes
                  {| stat_min := PyInt lo; stat_max := PyInt hi;
                     stat_average :=
                       Qdiv (inject_Z (foldr Z.add 0 sizes))
                            (inject_Z (Z.of_nat (length R)));
                     stat_total_bytes := foldr Z.add 0 sizes |}));
        change (m' !! "packet_size_stats")
          with (Some (StSizes
                  {| stat_min := PyInt lo; stat_max := PyInt hi;
                     stat_average :=
                       Qdiv (inject_Z (foldr Z.add 0 sizes'))
                            (inject_Z (Z.of_nat (length R')));
                     stat_total_bytes := foldr Z.add 0 sizes' |}))
    end.
    by rewrite (sum_Permutation _ _ Hsizes), (Permutation_length Hperm).
  - intros k.
    destruct (tally_spec protocol_of R []) as (_ & Hget & _).
    destruct (tally_spec protocol_of R' []) as (_ & Hget' & _).
    rewrite Hget, Hget'. simpl.
    apply (length_filter_Permutation _ _ _ Hperm).
Qed.

(** * The name of the statistics file *)









(** * More concrete runs *)

#[local] Existing Instance Demo.filesystem.

Lemma classify_ipv4_udp_sample :
  exists r : pydict,
    classify "a.pcap" Sample.udp_frame = Some r /\
    r !! "protocol" = Some (PyStr "UDP") /\
    r !! "source_port" = Some (PyInt 5353).
Proof.
  destruct (classify_ipv4_udp (lib := Sample.library) Sample.udp_frame
              "a.pcap"
              {| udp_sport := 5353; udp_dport := 53; len := 26;
                 chksum := 4660 |} eq_refl eq_refl eq_refl)
    as [Hsome Hprops].
  destruct Hsome as [r Hr]; [eexists; reflexivity|].
  exists r. destruct (Hprops r Hr) as (Hlabel & Hsport & _).
  repeat split; assumption.
Defined.

Lemma classify_ipv4_icmp_sample :
  exists r : pydict,
    classify "a.pcap" Demo.icmp_frame = Some r /\
    r !! "protocol" = Some (PyStr "ICMP") /\
    r !! "source_port" = None.
Proof.
  destruct (classify_ipv4_icmp (lib := Sample.library) Demo.icmp_frame
              "a.pcap" {| type := 8; code := 0 |}
              eq_refl eq_refl eq_refl eq_refl) as [Hsome Hprops].
  destruct Hsome as [r Hr]; [eexists; reflexivity|].
  exists r. destruct (Hprops r Hr) as (Hlabel & Hsport & _).
  repeat split; assumption.
Defined.

Lemma classify_ipv4_plain_sample :
  exists r : pydict,
    classify "a.pcap" Demo.gre_frame = Some r /\
    r !! "protocol" = Some (PyStr "IP") /\
    r !! "packet_data" = Some PyNone.
Proof.
  destruct (classify_ipv4_plain (lib := Sample.library) Demo.gre_frame
              "a.pcap" {| src := "10.0.0.1"; dst := "10.0.0.2" |}
              eq_refl eq_refl eq_refl eq_refl) as [Hsome Hprops].
  destruct Hsome as [r Hr]; [eexists; reflexivity|].
  exists r. destruct (Hprops r Hr) as (Hlabel & _ & _ & _ & _ & Hdata).
  repeat split; assumption.
Defined.

Lemma classify_ipv6_sample :
  exists r : pydict,
    classify "a.pcap" Demo.tcp6_frame = Some r /\
    r !! "source_ip" = Some (PyStr "fe80::1") /\
    r !! "packet_data" = Some PyNone /\
    r !! "protocol" = Some (PyStr "TCPv6").
Proof.
  destruct (classify_ipv6 (lib := Sample.library) Demo.tcp6_frame
              "a.pcap" {| src := "fe80::1"; dst := "fe80::2" |}
              eq_refl eq_refl) as [Hsome Hprops].
  destruct Hsome as [r Hr]; [eexists; reflexivity|].
  exists r. destruct (Hprops r Hr) as (Hsrc & _ & Hdata & Hlabel & _).
  repeat split; assumption.
Defined.

Lemma classify_ipv4_first_sample :
  exists r : pydict,
    classify "a.pcap" Demo.tunnel_frame = Some r /\
    r !! "source_ip" = Some (PyStr "192.0.2.1").
Proof.
  eexists. split; [reflexivity|].
  apply (classify_ipv4_first (lib := Sample.library) Demo.tunnel_frame
           "a.pcap" {| src := "192.0.2.1"; dst := "192.0.2.2" |} _
           eq_refl eq_refl).
Defined.

Lemma classify_fields_by_label_sample :
  exists (r : pydict) (label : string),
    classify "a.pcap" Demo.tcp6_frame = Some r /\
    r !! "protocol" = Some (PyStr label) /\
    (r !! "packet_data" = Some PyNone
       <-> label ∈ ["IP"; "IPv6"; "TCPv6"; "UDPv6"]).
Proof.
  eexists.
  destruct (classify_fields_by_label (lib := Sample.library)
              Demo.tcp6_frame "a.pcap" _ eq_refl)
    as (label & Hlabel & _ & _ & Hdata).
  exists label. split; [reflexivity|]. split; assumption.
Defined.

Lemma classify_keys_sample :
  exists r : pydict,
    classify "a.pcap" Sample.tcp_frame = Some r /\
    r !! "file_name" = Some (PyStr "a.pcap").
Proof.
  eexists. split; [reflexivity|].
  apply (classify_keys (lib := Sample.library) Sample.tcp_frame "a.pcap" _
           eq_refl).
Defined.

Lemma records_within_cap_sample :
  Z.of_nat (length (parse_pcap_file 1 "pcap_files/a.pcap").1) <= 1.
Proof.
  apply (records_within_cap (lib := Sample.library) 1 "pcap_files/a.pcap"
           Sample.frames eq_refl). lia.
Defined.

Lemma no_cap_keeps_all_sample :
  (parse_pcap_file 0 "pcap_files/a.pcap").1
  = omap (classify "a.pcap") Sample.frames.
Proof.
  apply (no_cap_keeps_all (lib := Sample.library) 0 "pcap_files/a.pcap"
           Sample.frames eq_refl). by left.
Defined.

Lemma negative_cap_drops_tail_sample :
  (parse_pcap_file (-1) "pcap_files/a.pcap").1
  = omap (classify "a.pcap")
         [Sample.tcp_frame; Sample.bad_frame; Sample.udp_frame].
Proof.
  apply (negative_cap_drops_tail (lib := Sample.library) (-1)
           "pcap_files/a.pcap" Sample.frames eq_refl). lia.
Defined.

Lemma every_frame_is_accounted_for_sample :
  (length (parse_pcap_file 10 "pcap_files/a.pcap").1
   + extraction_errors (parse_pcap_file 10 "pcap_files/a.pcap").2)%nat
  = 4%nat.
Proof.
  apply (every_frame_is_accounted_for (lib := Sample.library) 10
           "pcap_files/a.pcap" Sample.frames eq_refl).
Defined.

Lemma records_carry_file_name_sample :
  Demo.first_record !! "file_name" = Some (PyStr "a.pcap").
Proof.
  apply (records_carry_file_name (lib := Sample.library) 10
           "pcap_files/a.pcap" Demo.first_record).
  apply (list_elem_of_lookup_2 _ 0%nat). reflexivity.
Defined.

Lemma is_pcap_name_spec_sample : is_pcap_name "Capture.PcapNG" = true.
Proof.
  apply is_pcap_name_spec. exists "Capture", ".PcapNG".
  split; [reflexivity|]. right. reflexivity.
Defined.

Lemma parse_directory_concat_sample :
  exists log : list dir_event,
    parse_directory (lib := Sample.library) 10 "pcap_files"
    = Some ((parse_pcap_file 10 "pcap_files/a.pcap").1
            ++ (parse_pcap_file 10 "pcap_files/B.PCAP").1 ++ [], log).
Proof.
  destruct (parse_directory_concat (lib := Sample.library)
              (fs := Demo.filesystem) 10 "pcap_files"
              ["a.pcap"; "notes.txt"; "B.PCAP"] eq_refl eq_refl)
    as (all_packets & log & Hpd & -> & _).
  exists log. exact Hpd.
Defined.

Lemma unreadable_files_are_skipped_sample :
  exists log : list dir_event,
    parse_directory (lib := Sample.library) 10 "pcap_files"
    = Some ((parse_pcap_file 10 "pcap_files/a.pcap").1 ++ [], log).
Proof.
  apply (unreadable_files_are_skipped (lib := Sample.library)
           (fs := Demo.filesystem) 10 "pcap_files"
           ["a.pcap"; "notes.txt"; "B.PCAP"] eq_refl eq_refl).
Defined.

Lemma directory_within_cap_sample :
  exists (all_packets : list pydict) (log : list dir_event),
    parse_directory (lib := Sample.library) 1 "pcap_files"
    = Some (all_packets, log) /\
    Z.of_nat (length all_packets) <= 1 * 2.
Proof.
  destruct (parse_directory_eq (lib := Sample.library)
              (fs := Demo.filesystem) 1 "pcap_files"
              ["a.pcap"; "notes.txt"; "B.PCAP"] eq_refl eq_refl)
    as (log & Hpd & _).
  eexists _, log. split; [exact Hpd|].
  apply (directory_within_cap (lib := Sample.library)
           (fs := Demo.filesystem) 1 "pcap_files"
           ["a.pcap"; "notes.txt"; "B.PCAP"] _ log); [lia|reflexivity|].
  exact Hpd.
Defined.

Lemma apply_filters_exact_sample :
  [Sample.tcp_record]
  = List.filter (matches {["protocol" := PyStr "TCP"]}) Sample.records.
Proof.
  apply (apply_filters_exact (lib := Sample.library) Sample.records
           [Sample.tcp_record] {["protocol" := PyStr "TCP"]}).
  reflexivity.
Defined.

Lemma apply_filters_sound_sample :
  get Sample.tcp_record "protocol" = PyStr "TCP".
Proof.
  destruct (apply_filters_sound (lib := Sample.library) Sample.records
              [Sample.tcp_record] {["protocol" := PyStr "TCP"]}
              Sample.tcp_record) as (Hproto & _).
  - reflexivity.
  - left.
  - apply Hproto. reflexivity.
Defined.

Lemma port_filter_drops_portless_sample :
  Sample.other_record ∉ [Sample.tcp_record].
Proof.
  apply (port_filter_drops_portless (lib := Sample.library) Sample.records
           [Sample.tcp_record] {["port" := PyInt 80]} Sample.other_record
           (PyInt 80)); reflexivity.
Defined.

Lemma unparsable_time_bound_raises_sample :
  _apply_filters (lib := Sample.library) []
                 {["start_time" := PyStr "yesterday"]} = None.
Proof.
  apply (unparsable_time_bound_raises (lib := Sample.library) []
           {["start_time" := PyStr "yesterday"]} "start_time"
           (PyStr "yesterday")); [by left|reflexivity|reflexivity].
Defined.

Lemma time_filter_needs_timestamps_sample :
  _apply_filters (lib := Sample.library)
                 [Sample.tcp_record; Demo.untimed_record]
                 {["start_time" := PyStr "2024-01-01T00:00:00"]} = None.
Proof.
  apply (time_filter_needs_timestamps (lib := Sample.library)
           [Sample.tcp_record; Demo.untimed_record]
           {["start_time" := PyStr "2024-01-01T00:00:00"]}
           Demo.untimed_record); try reflexivity.
  - left. eexists. reflexivity.
  - right. left.
Defined.

Lemma added_criterion_narrows_sample :
  [Sample.tcp_record] `sublist_of` Sample.records.
Proof.
  apply (added_criterion_narrows (lib := Sample.library) Sample.records
           Sample.records [Sample.tcp_record] ∅ "protocol" (PyStr "TCP"));
    reflexivity.
Defined.

Lemma protocol_distribution_counts_sample :
  exists (report : gmap string statval) (c : counter),
    _calculate_statistics Sample.records = Some report /\
    report !! "protocol_distribution" = Some (StCounts c) /\
    counter_get c (PyStr "TCP") = 1%nat.
Proof.
  destruct (protocol_distribution_counts Sample.records)
    as (report & c & Hrep & Hc & _ & Hget & _).
  - discriminate.
  - repeat constructor; eexists; reflexivity.
  - exists report, c. split; [exact Hrep|]. split; [exact Hc|].
    rewrite Hget. reflexivity.
Defined.

Lemma top10_selects_largest_sample :
  top10 [(PyStr "a", 1%nat); (PyStr "b", 3%nat); (PyStr "c", 3%nat)]
  ≡ₚ [(PyStr "a", 1%nat); (PyStr "b", 3%nat); (PyStr "c", 3%nat)].
Proof.
  apply (top10_selects_largest
           [(PyStr "a", 1%nat); (PyStr "b", 3%nat); (PyStr "c", 3%nat)]).
  simpl. lia.
Defined.

Lemma top_tables_skip_falsy_sample :
  truthy (PyInt 12345) = true /\
  exists p, p ∈ Sample.records /\ get p "source_port" = PyInt 12345.
Proof.
  apply (top_tables_skip_falsy Sample.records "source_port"
           (PyInt 12345, 1%nat)).
  apply (list_elem_of_lookup_2 _ 0%nat). reflexivity.
Defined.



Lemma statistics_ignore_order_sample :
  exists report report' : gmap string statval,
    _calculate_statistics Sample.records = Some report /\
    _calculate_statistics (reverse Sample.records) = Some report' /\
    report !! "packet_size_stats" = report' !! "packet_size_stats".
Proof.
  destruct (statistics_ignore_order Sample.records (reverse Sample.records))
    as (report & report' & c & c' & H1 & H2 & _ & H3 & _).
  - symmetry. apply reverse_Permutation.
  - discriminate.
  - repeat constructor; eexists; reflexivity.
  - exists report, report'. repeat split; assumption.
Defined.

